(** * Berlin services MCP server: a shallow embedding of
      [src/berlin_services_mcp/server.py] and the properties of its
      query functions, formatter, data fetcher and tool dispatcher.

    Modelling choices, all documented where they are made:
    - Python values that [json.loads] can produce are the inductive [pyval];
      JSON numbers with a fraction or exponent (Python floats) are outside
      the model.
    - A [str] is a Rocq [string]; one character stands for one code point
      below 256, so [len] is [String.length].
    - A raising computation returns [Err e]; [exn] records the class name and
      [str(e)].  Only subclasses of [Exception] are modelled.
    - Tool invocations run one at a time: a call of [fetch_services_data]
      runs to completion before the next one starts.  Calls of the fetcher
      that overlap at its [await] are modelled apart, by [run_events]. *)

From Stdlib Require Import ZArith List String Ascii Bool Lia DecimalString.
Import ListNotations.

Set Warnings "-register-all".

Local Open Scope string_scope.
Local Open Scope list_scope.
Local Open Scope Z_scope.

(** String concatenation, kept apart from list append. *)
Infix "+++" := String.append (right associativity, at level 60).

(* ================================================================== *)
(** * Exceptions and the error monad *)

Record exn : Type := Raise { exn_class : string; exn_str : string }.

Inductive result (A : Type) : Type :=
| Ok (a : A)
| Err (e : exn).
Arguments Ok {A} a.
Arguments Err {A} e.

Definition bind {A B : Type} (c : result A) (k : A -> result B) : result B :=
  match c with
  | Ok a => k a
  | Err e => Err e
  end.

Notation "x <- c ;; k" := (bind c (fun x => k))
  (at level 61, c at next level, right associativity).

(* ================================================================== *)
(** * Python values *)

Inductive pyval : Type :=
| PNone
| PBool (b : bool)
| PInt (z : Z)
| PStr (s : string)
| PList (l : list pyval)
| PDict (d : list (string * pyval)).

(** [type(v).__name__] *)
Definition type_name (v : pyval) : string :=
  match v with
  | PNone => "NoneType"
  | PBool _ => "bool"
  | PInt _ => "int"
  | PStr _ => "str"
  | PList _ => "list"
  | PDict _ => "dict"
  end.

(** [bool(v)], the test behind [if v:] and [not v]. *)
Definition truthy (v : pyval) : bool :=
  match v with
  | PNone => false
  | PBool b => b
  | PInt z => negb (z =? 0)
  | PStr s => negb (s =? "")%string
  | PList l => match l with [] => false | _ => true end
  | PDict d => match d with [] => false | _ => true end
  end.

Definition is_none (v : pyval) : bool :=
  match v with PNone => true | _ => false end.

(** ** Strings *)

Definition str_of_Z (z : Z) : string := NilZero.string_of_int (Z.to_int z).
Definition str_of_nat (n : nat) : string := str_of_Z (Z.of_nat n).

(** [str.lower] on code points below 256: A-Z and the Latin-1 capitals
    (0xC0-0xDE without the multiplication sign 0xD7) move up by 32. *)
Definition lower_char (c : ascii) : ascii :=
  let n := nat_of_ascii c in
  if ((65 <=? n) && (n <=? 90))%nat then ascii_of_nat (n + 32)
  else if ((192 <=? n) && (n <=? 222) && negb (n =? 215))%nat
       then ascii_of_nat (n + 32)
       else c.

Fixpoint lower (s : string) : string :=
  match s with
  | EmptyString => EmptyString
  | String c r => String (lower_char c) (lower r)
  end.

(** [needle in hay] for two strings. *)
Fixpoint py_in (needle hay : string) : bool :=
  String.prefix needle hay
  || match hay with
     | EmptyString => false
     | String _ r => py_in needle r
     end.

(** [s[:n]] for [0 <= n]. *)
Fixpoint str_take (n : nat) (s : string) : string :=
  match n, s with
  | S k, String c r => String c (str_take k r)
  | _, _ => EmptyString
  end.

Fixpoint join (sep : string) (l : list string) : string :=
  match l with
  | [] => ""
  | [x] => x
  | x :: r => x +++ sep +++ join sep r
  end.

(** ** [repr] and [str] *)

Definition dquote : ascii := ascii_of_nat 34.
Definition squote : ascii := ascii_of_nat 39.
Definition backslash : ascii := ascii_of_nat 92.

Fixpoint has_char (c : ascii) (s : string) : bool :=
  match s with
  | EmptyString => false
  | String x r => Ascii.eqb c x || has_char c r
  end.

Definition hex_digit (n : nat) : ascii :=
  if (n <? 10)%nat then ascii_of_nat (48 + n) else ascii_of_nat (87 + n).

Definition hex_escape (n : nat) : string :=
  String backslash
    (String "x" (String (hex_digit (n / 16)) (String (hex_digit (n mod 16)) ""))).

Definition repr_char (quote c : ascii) : string :=
  let n := nat_of_ascii c in
  if Ascii.eqb c quote || Ascii.eqb c backslash then String backslash (String c "")
  else if (n =? 9)%nat then String backslash "t"
  else if (n =? 10)%nat then String backslash "n"
  else if (n =? 13)%nat then String backslash "r"
  else if ((n <? 32) || (n =? 127))%nat then hex_escape n
  else if (n <? 127)%nat then String c ""
  else if ((n <=? 160) || (n =? 173))%nat then hex_escape n
  else String c "".

Fixpoint repr_chars (quote : ascii) (s : string) : string :=
  match s with
  | EmptyString => EmptyString
  | String c r => repr_char quote c +++ repr_chars quote r
  end.

Definition repr_str (s : string) : string :=
  let quote := if has_char squote s && negb (has_char dquote s)
               then dquote else squote in
  String quote (repr_chars quote s +++ String quote "").

Fixpoint py_repr (v : pyval) : string :=
  match v with
  | PNone => "None"
  | PBool true => "True"
  | PBool false => "False"
  | PInt z => str_of_Z z
  | PStr s => repr_str s
  | PList l => "[" +++ join ", " (map py_repr l) +++ "]"
  | PDict d =>
      "{" +++ join ", " (map (fun kv => repr_str (fst kv) +++ ": " +++ py_repr (snd kv)) d)
          +++ "}"
  end.

(** [str(v)], also what an f-string field [{v}] expands to. *)
Definition py_str (v : pyval) : string :=
  match v with
  | PStr s => s
  | _ => py_repr v
  end.

(** ** Dictionaries and the operations the server applies to values *)

Fixpoint dict_get (d : list (string * pyval)) (k : string) : option pyval :=
  match d with
  | [] => None
  | (k', v) :: r => if (k' =? k)%string then Some v else dict_get r k
  end.

Definition attribute_error {A} (v : pyval) (attr : string) : result A :=
  Err (Raise "AttributeError"
         ("'" +++ type_name v +++ "' object has no attribute '" +++ attr +++ "'")).

Definition type_error {A} (msg : string) : result A :=
  Err (Raise "TypeError" msg).

(** [v.get(k, dflt)] *)
Definition py_get (v : pyval) (k : string) (dflt : pyval) : result pyval :=
  match v with
  | PDict d => Ok (match dict_get d k with Some x => x | None => dflt end)
  | _ => attribute_error v "get"
  end.

(** [v.lower()] *)
Definition py_lower (v : pyval) : result string :=
  match v with
  | PStr s => Ok (lower s)
  | _ => attribute_error v "lower"
  end.

Fixpoint chars (s : string) : list pyval :=
  match s with
  | EmptyString => []
  | String c r => PStr (String c "") :: chars r
  end.

(** The items [for x in v] visits. *)
Definition py_iter (v : pyval) : result (list pyval) :=
  match v with
  | PList l => Ok l
  | PStr s => Ok (chars s)
  | PDict d => Ok (map (fun kv => PStr (fst kv)) d)
  | _ => type_error ("'" +++ type_name v +++ "' object is not iterable")
  end.

(** Number of items [l[:n]] keeps of a sequence of length [len]. *)
Definition slice_stop (len : nat) (n : Z) : nat :=
  if n <? 0 then Z.to_nat (Z.of_nat len + n) else Z.to_nat n.

(** [v[:n]]; a dict rejects the slice as a key. *)
Definition py_slice_to (v : pyval) (n : Z) : result pyval :=
  match v with
  | PList l => Ok (PList (firstn (slice_stop (List.length l) n) l))
  | PStr s => Ok (PStr (str_take (slice_stop (String.length s) n) s))
  | PDict _ => type_error "unhashable type: 'slice'"
  | _ => type_error ("'" +++ type_name v +++ "' object is not subscriptable")
  end.

(** [v[0]] for a truthy [v]. *)
Definition py_first (v : pyval) : result pyval :=
  match v with
  | PList (x :: _) => Ok x
  | PList [] => Err (Raise "IndexError" "list index out of range")
  | PStr (String c _) => Ok (PStr (String c ""))
  | PStr EmptyString => Err (Raise "IndexError" "string index out of range")
  | PDict _ => Err (Raise "KeyError" "0")
  | _ => type_error ("'" +++ type_name v +++ "' object is not subscriptable")
  end.

(** [len(v)] *)
Definition py_len (v : pyval) : result nat :=
  match v with
  | PStr s => Ok (String.length s)
  | PList l => Ok (List.length l)
  | PDict d => Ok (List.length d)
  | _ => type_error ("object of type '" +++ type_name v +++ "' has no len()")
  end.

(** [v != 'keine'] and the like: comparing any value with a string. *)
Definition is_str (v : pyval) (s : string) : bool :=
  match v with
  | PStr t => (t =? s)%string
  | _ => false
  end.

(* ================================================================== *)
(** * Query functions *)

(** The dict literal [search_services] appends for a match. *)
Record search_result : Type := SearchResult {
  sr_id : pyval;
  sr_name : pyval;
  sr_description : pyval;
  sr_url : pyval;
  sr_fees : pyval
}.

(** The conditional expression of the ["description"] entry on a text [d]:
    [d[:200] + "..." if len(d) > 200 else d]. *)
Definition truncate_description (d : string) : string :=
  if (200 <? String.length d)%nat then str_take 200 d +++ "..." else d.

(** The ["description"] entry of the dict literal, as the code evaluates
    it: the test [len(...) > 200] first, then one of the two branches, each
    with its own [service.get("description", "")]. *)
Definition description_entry (service : pyval) : result pyval :=
  d <- py_get service "description" (PStr "") ;;
  n <- py_len d ;;
  if (200 <? n)%nat
  then d1 <- py_get service "description" (PStr "") ;;
       cut <- py_slice_to d1 200 ;;
       match cut with
       | PStr s => Ok (PStr (s +++ "..."))
       | _ => type_error ("can only concatenate list (not " +++ String dquote "str"
                            +++ String dquote ") to list")
       end
  else py_get service "description" (PStr "").

(** One turn of the loop of [search_services]: [None] when the record does
    not match. *)
Definition search_step (query_lower : string) (service : pyval)
  : result (option search_result) :=
  n <- py_get service "name" (PStr "") ;;
  name <- py_lower n ;;
  d <- py_get service "description" (PStr "") ;;
  description <- py_lower d ;;
  if py_in query_lower name || py_in query_lower description
  then
    id <- py_get service "id" PNone ;;
    nm <- py_get service "name" PNone ;;
    ds <- description_entry service ;;
    meta <- py_get service "meta" (PDict []) ;;
    url <- py_get meta "url" (PStr "") ;;
    fees <- py_get service "fees" (PStr "") ;;
    Ok (Some (SearchResult id nm ds url fees))
  else Ok None.

Fixpoint search_loop (query_lower : string) (services : list pyval)
         (results : list search_result) : result (list search_result) :=
  match services with
  | [] => Ok results
  | service :: rest =>
      r <- search_step query_lower service ;;
      search_loop query_lower rest
        (match r with Some x => results ++ [x] | None => results end)
  end.

Definition search_services (data query : pyval) : result (list search_result) :=
  query_lower <- py_lower query ;;
  d <- py_get data "data" (PList []) ;;
  services <- py_iter d ;;
  search_loop query_lower services [].

(** The loop of [get_service_by_id]; it returns at the first match and does
    not look at the records after it. *)
Fixpoint get_service_loop (services : list pyval) (service_id : pyval)
  : result (option pyval) :=
  match services with
  | [] => Ok None
  | service :: rest =>
      id <- py_get service "id" PNone ;;
      if (py_str id =? py_str service_id)%string
      then Ok (Some service)
      else get_service_loop rest service_id
  end.

Definition get_service_by_id (data service_id : pyval) : result (option pyval) :=
  d <- py_get data "data" (PList []) ;;
  services <- py_iter d ;;
  get_service_loop services service_id.

(** The dict literal [list_all_services] appends. *)
Record list_item : Type := ListItem {
  li_id : pyval;
  li_name : pyval;
  li_url : pyval
}.

Definition list_step (service : pyval) : result list_item :=
  id <- py_get service "id" PNone ;;
  nm <- py_get service "name" PNone ;;
  meta <- py_get service "meta" (PDict []) ;;
  url <- py_get meta "url" (PStr "") ;;
  Ok (ListItem id nm url).

Fixpoint list_loop (services : list pyval) (acc : list list_item)
  : result (list list_item) :=
  match services with
  | [] => Ok acc
  | service :: rest =>
      item <- list_step service ;;
      list_loop rest (acc ++ [item])
  end.

Definition list_all_services (data : pyval) (limit : Z) : result (list list_item) :=
  d <- py_get data "data" (PList []) ;;
  prefix <- py_slice_to d limit ;;
  services <- py_iter prefix ;;
  list_loop services [].

(* ================================================================== *)
(** * Formatter *)

Definition nl : string := String (ascii_of_nat 10) "".

(** [for x in items: lines.append(...)], where [body] gives the lines one
    turn appends. *)
Fixpoint append_each (body : pyval -> result (list pyval)) (items lines : list pyval)
  : result (list pyval) :=
  match items with
  | [] => Ok lines
  | x :: rest =>
      new <- body x ;;
      append_each body rest (lines ++ new)
  end.

Definition requirement_lines (req : pyval) : result (list pyval) :=
  n <- py_get req "name" (PStr "N/A") ;;
  d <- py_get req "description" (PStr "") ;;
  Ok [PStr (nl +++ "### " +++ py_str n); d].

Definition add_requirements (service : pyval) (lines : list pyval)
  : result (list pyval) :=
  requirements <- py_get service "requirements" (PList []) ;;
  if truthy requirements
  then items <- py_iter requirements ;;
       append_each requirement_lines items (lines ++ [PStr (nl +++ "## Requirements")])
  else Ok lines.

Definition prerequisite_line (prereq : pyval) : result (list pyval) :=
  n <- py_get prereq "name" (PStr "N/A") ;;
  Ok [PStr ("- " +++ py_str n)].

Definition add_prerequisites (service : pyval) (lines : list pyval)
  : result (list pyval) :=
  prerequisites <- py_get service "prerequisites" (PList []) ;;
  if truthy prerequisites
  then first <- py_first prerequisites ;;
       n <- py_get first "name" PNone ;;
       if negb (is_str n "keine")
       then items <- py_iter prerequisites ;;
            append_each prerequisite_line items
              (lines ++ [PStr (nl +++ "## Prerequisites")])
       else Ok lines
  else Ok lines.

(** The body shared by the loops over [forms] and [legal]. *)
Definition link_line (entry : pyval) : result (list pyval) :=
  name <- py_get entry "name" (PStr "N/A") ;;
  link <- py_get entry "link" (PStr "") ;;
  if truthy link
  then Ok [PStr ("- [" +++ py_str name +++ "](" +++ py_str link +++ ")")]
  else Ok [PStr ("- " +++ py_str name)].

Definition add_forms (service : pyval) (lines : list pyval) : result (list pyval) :=
  forms <- py_get service "forms" (PList []) ;;
  if truthy forms
  then items <- py_iter forms ;;
       append_each link_line items (lines ++ [PStr (nl +++ "## Forms")])
  else Ok lines.

Definition add_online (service : pyval) (lines : list pyval) : result (list pyval) :=
  online <- py_get service "onlineprocessing" (PDict []) ;;
  l <- py_get online "link" PNone ;;
  if truthy l
  then l' <- py_get online "link" PNone ;;
       Ok (lines ++ [PStr (nl +++ "## Online Processing");
                     PStr ("[Process online](" +++ py_str l' +++ ")")])
  else Ok lines.

Definition add_appointment (service : pyval) (lines : list pyval)
  : result (list pyval) :=
  appointment <- py_get service "appointment" (PDict []) ;;
  l <- py_get appointment "link" PNone ;;
  if truthy l
  then l' <- py_get appointment "link" PNone ;;
       Ok (lines ++ [PStr (nl +++ "## Appointment");
                     PStr ("[Book appointment](" +++ py_str l' +++ ")")])
  else Ok lines.

Definition authority_line (auth : pyval) : result (list pyval) :=
  n <- py_get auth "name" (PStr "N/A") ;;
  Ok [PStr ("- " +++ py_str n)].

Definition add_authorities (service : pyval) (lines : list pyval)
  : result (list pyval) :=
  authorities <- py_get service "authorities" (PList []) ;;
  if truthy authorities
  then first5 <- py_slice_to authorities 5 ;;
       items <- py_iter first5 ;;
       lines' <- append_each authority_line items
                   (lines ++ [PStr (nl +++ "## Responsible Authorities")]) ;;
       n <- py_len authorities ;;
       if (5 <? n)%nat
       then Ok (lines' ++ [PStr ("- ... and " +++ str_of_nat (n - 5) +++ " more")])
       else Ok lines'
  else Ok lines.

Definition add_legal (service : pyval) (lines : list pyval) : result (list pyval) :=
  legal <- py_get service "legal" (PList []) ;;
  if truthy legal
  then items <- py_iter legal ;;
       append_each link_line items (lines ++ [PStr (nl +++ "## Legal Basis")])
  else Ok lines.

(** The items of [sep.join(lines)] as strings; [i] is the index of the head. *)
Fixpoint str_items (i : nat) (lines : list pyval) : result (list string) :=
  match lines with
  | [] => Ok []
  | PStr s :: rest => r <- str_items (S i) rest ;; Ok (s :: r)
  | v :: _ =>
      type_error ("sequence item " +++ str_of_nat i +++ ": expected str instance, "
                  +++ type_name v +++ " found")
  end.

Definition py_join (sep : string) (lines : list pyval) : result string :=
  l <- str_items 0 lines ;;
  Ok (join sep l).

(** The list literal that opens [format_service_details]. *)
Definition head_lines (service : pyval) : result (list pyval) :=
  name <- py_get service "name" (PStr "N/A") ;;
  id <- py_get service "id" (PStr "N/A") ;;
  meta <- py_get service "meta" (PDict []) ;;
  url <- py_get meta "url" (PStr "N/A") ;;
  description <- py_get service "description" (PStr "N/A") ;;
  fees <- py_get service "fees" (PStr "N/A") ;;
  process_time <- py_get service "process_time" (PStr "N/A") ;;
  Ok [ PStr ("# " +++ py_str name);
       PStr (nl +++ "**ID:** " +++ py_str id);
       PStr ("**URL:** " +++ py_str url);
       PStr (nl +++ "## Description");
       description;
       PStr (nl +++ "## Fees");
       fees;
       PStr (nl +++ "## Process Time");
       process_time ].

(** The list [lines] just before the final [join]. *)
Definition format_lines (service : pyval) : result (list pyval) :=
  lines <- head_lines service ;;
  lines <- add_requirements service lines ;;
  lines <- add_prerequisites service lines ;;
  lines <- add_forms service lines ;;
  lines <- add_online service lines ;;
  lines <- add_appointment service lines ;;
  lines <- add_authorities service lines ;;
  add_legal service lines.

Definition format_service_details (service : pyval) : result string :=
  lines <- format_lines service ;;
  py_join nl lines.

(* ================================================================== *)
(** * Data fetcher *)

(** What [httpx] hands back for the GET request.  [status_error] is the
    exception [raise_for_status] raises for this response when the status is
    not a success, and [json] is what [response.json()] returns or raises. *)
Record response : Type := Response {
  status_code : Z;
  status_error : exn;
  json : result pyval
}.

(** [httpx.Response.raise_for_status]: a library function, taken with its
    documented behaviour (raise unless the status is 2xx). *)
Definition raise_for_status (r : response) : result unit :=
  if (200 <=? status_code r) && (status_code r <? 300)
  then Ok tt
  else Err (status_error r).

(** The network: the outcome of the [n]-th GET request the process sends
    ([Err] when [client.get] itself raises: connection error, timeout). *)
Definition network : Type := nat -> result response.

(** Process-wide state: the global [_services_cache] ([PNone] until it is
    assigned) and the number of GET requests sent so far. *)
Record process : Type := Process {
  _services_cache : pyval;
  requests : nat
}.

Definition start : process := Process PNone 0.

(** The body of the [async with] block, given the reply to the request. *)
Definition fetched (reply : result response) : result pyval :=
  resp <- reply ;;
  _ <- raise_for_status resp ;;
  json resp.

Definition fetch_services_data (net : network) (p : process)
  : result pyval * process :=
  if negb (is_none (_services_cache p))
  then (Ok (_services_cache p), p)
  else
    match fetched (net (requests p)) with
    | Ok v => (Ok v, Process v (S (requests p)))
    | Err e => (Err e, Process (_services_cache p) (S (requests p)))
    end.

(* ================================================================== *)
(** * Tool dispatcher *)

Record TextContent : Type := mkTextContent {
  type : string;
  text : string
}.

(** [min(v, 200)]: [200] wins when [200 < v]; comparing an int with anything
    but an int or a bool raises. *)
Definition py_min_200 (v : pyval) : result pyval :=
  match v with
  | PInt z => Ok (if 200 <? z then PInt 200 else v)
  | PBool _ => Ok v
  | _ => type_error ("'<' not supported between instances of 'int' and '"
                     +++ type_name v +++ "'")
  end.

(** [v.__index__()], what a slice bound must offer. *)
Definition py_index (v : pyval) : result Z :=
  match v with
  | PInt z => Ok z
  | PBool b => Ok (if b then 1 else 0)
  | _ => type_error "slice indices must be integers or None or have an __index__ method"
  end.

Definition search_paragraph (output : string) (r : search_result) : string :=
  output
  +++ "**" +++ py_str (sr_name r) +++ "**" +++ nl
  +++ "ID: " +++ py_str (sr_id r) +++ nl
  +++ "URL: " +++ py_str (sr_url r) +++ nl
  +++ "Fees: " +++ py_str (sr_fees r) +++ nl
  +++ "Description: " +++ py_str (sr_description r) +++ nl +++ nl.

Definition tool_search (arguments data : pyval) : result string :=
  query <- py_get arguments "query" (PStr "") ;;
  if negb (truthy query)
  then Ok "Error: query parameter is required"
  else
    results <- search_services data query ;;
    match results with
    | [] => Ok ("No services found matching '" +++ py_str query +++ "'")
    | _ =>
        Ok (fold_left search_paragraph results
              ("Found " +++ str_of_nat (List.length results)
               +++ " service(s) matching '" +++ py_str query +++ "':" +++ nl +++ nl))
    end.

Definition tool_details (arguments data : pyval) : result string :=
  service_id <- py_get arguments "service_id" (PStr "") ;;
  if negb (truthy service_id)
  then Ok "Error: service_id parameter is required"
  else
    found <- get_service_by_id data service_id ;;
    match found with
    | Some service =>
        if truthy service
        then format_service_details service
        else Ok ("Service with ID '" +++ py_str service_id +++ "' not found")
    | None => Ok ("Service with ID '" +++ py_str service_id +++ "' not found")
    end.

Definition list_bullet (output : string) (item : list_item) : string :=
  output
  +++ "- **" +++ py_str (li_name item) +++ "** (ID: " +++ py_str (li_id item) +++ ")" +++ nl
  +++ "  " +++ py_str (li_url item) +++ nl.

Definition tool_list (arguments data : pyval) : result string :=
  l <- py_get arguments "limit" (PInt 50) ;;
  m <- py_min_200 l ;;
  limit <- py_index m ;;
  services <- list_all_services data limit ;;
  total <- py_get data "datacount" (PInt 0) ;;
  Ok (fold_left list_bullet services
        ("Berlin Administrative Services (showing " +++ str_of_nat (List.length services)
         +++ " of " +++ py_str total +++ " total):" +++ nl +++ nl)).

Definition tool_stats (data : pyval) : result string :=
  datacount <- py_get data "datacount" (PStr "N/A") ;;
  created <- py_get data "created" (PStr "N/A") ;;
  locale <- py_get data "locale" (PStr "N/A") ;;
  hash <- py_get data "hash" (PStr "N/A") ;;
  error <- py_get data "error" (PBool false) ;;
  count <- py_get data "datacount" (PInt 0) ;;
  Ok ("# Berlin Services Statistics" +++ nl +++ nl
      +++ "**Total Services:** " +++ py_str datacount +++ nl
      +++ "**Last Updated:** " +++ py_str created +++ nl
      +++ "**Locale:** " +++ py_str locale +++ nl
      +++ "**Data Hash:** " +++ py_str hash +++ nl
      +++ "**Error Status:** " +++ py_str error +++ nl +++ nl
      +++ "The dataset contains information about " +++ py_str count
      +++ " administrative services provided by Berlin authorities." +++ nl).

(** The [if]/[elif] chain of [call_tool], entered once the dataset is there. *)
Definition dispatch (name : string) (arguments data : pyval) : result string :=
  if (name =? "search_services")%string then tool_search arguments data
  else if (name =? "get_service_details")%string then tool_details arguments data
  else if (name =? "list_services")%string then tool_list arguments data
  else if (name =? "get_services_stats")%string then tool_stats data
  else Ok ("Unknown tool: " +++ name).

(** The [try] block of [call_tool]: load the dataset, then dispatch. *)
Definition call_tool_try (net : network) (name : string) (arguments : pyval)
           (p : process) : result string * process :=
  match fetch_services_data net p with
  | (Ok data, p') => (dispatch name arguments data, p')
  | (Err e, p') => (Err e, p')
  end.

Definition text_content (t : string) : list TextContent := [mkTextContent "text" t].

(** [call_tool]: the [try] block under its [except Exception as e] handler. *)
Definition call_tool (net : network) (name : string) (arguments : pyval)
           (p : process) : list TextContent * process :=
  match call_tool_try net name arguments p with
  | (Ok t, p') => (text_content t, p')
  | (Err e, p') => (text_content ("Error: " +++ exn_str e), p')
  end.

(** A run of the server: the invocations the host sends, one after another. *)
Fixpoint serve (net : network) (calls : list (string * pyval)) (p : process)
  : list (list TextContent) * process :=
  match calls with
  | [] => ([], p)
  | (name, arguments) :: rest =>
      let (r, p') := call_tool net name arguments p in
      let (rs, p'') := serve net rest p' in
      (r :: rs, p'')
  end.

(* ================================================================== *)
(** * Reading a record without effects

    The views the statements below use to speak about a record: what
    [v.get(k, dflt)] yields on a mapping, and a text field with the default
    [""] of [search_services]. *)

Definition field (v : pyval) (k : string) (dflt : pyval) : pyval :=
  match v with
  | PDict d => match dict_get d k with Some x => x | None => dflt end
  | _ => dflt
  end.

Definition text_field (service : pyval) (k : string) : string :=
  match field service k (PStr "") with
  | PStr s => s
  | _ => ""
  end.

(** The value of the dataset's ["data"] entry when it is a sequence. *)
Definition records (data : pyval) : list pyval :=
  match field data "data" (PList []) with
  | PList l => l
  | _ => []
  end.

(** [query] occurs in [s], ignoring case. *)
Definition icontains (query s : string) : bool := py_in (lower query) (lower s).

(** The record's name or description contains the query, ignoring case. *)
Definition matches (query : string) (service : pyval) : bool :=
  icontains query (text_field service "name")
  || icontains query (text_field service "description").

(** The same test on a field of a result, which holds any value. *)
Definition value_contains (query : string) (v : pyval) : bool :=
  match v with
  | PStr s => icontains query s
  | _ => false
  end.

Definition search_projection (service : pyval) : search_result :=
  SearchResult
    (field service "id" PNone)
    (field service "name" PNone)
    (PStr (truncate_description (text_field service "description")))
    (field (field service "meta" (PDict [])) "url" (PStr ""))
    (field service "fees" (PStr "")).

(** A field that is absent or holds text. *)
Definition text_or_missing (d : list (string * pyval)) (k : string) : Prop :=
  match dict_get d k with
  | None => True
  | Some (PStr _) => True
  | Some _ => False
  end.

(** A record [search_services] can test: a mapping whose name and
    description, when present, are text. *)
Definition searchable (service : pyval) : Prop :=
  match service with
  | PDict d => text_or_missing d "name" /\ text_or_missing d "description"
  | _ => False
  end.

(** A dataset: a mapping whose ["data"] entry, when present, is a sequence. *)
Definition dataset (data : pyval) : Prop :=
  match data with
  | PDict d =>
      match dict_get d "data" with
      | None | Some (PList _) => True
      | Some _ => False
      end
  | _ => False
  end.

Fixpoint str_repeat (c : ascii) (n : nat) : string :=
  match n with
  | O => ""
  | S k => String c (str_repeat c k)
  end.

(* ================================================================== *)
(** * Statements under test and sample data *)

(** The end-to-end scenario of the specification: three services counted,
    one record listed. *)
Definition anmeldung : pyval :=
  PDict [("id", PInt 7); ("name", PStr "Anmeldung");
         ("description", PStr "Register your address")].

Definition sample : pyval :=
  PDict [("datacount", PInt 3); ("data", PList [anmeldung])].

(** A record whose description holds "xyz" only after character 200. *)
Definition late_match : pyval :=
  PDict [("id", PInt 1); ("name", PStr "Amt");
         ("description", PStr (str_repeat "a" 200 +++ "xyz"))].

(** A record whose description is 201 characters long. *)
Definition just_too_long : pyval :=
  PDict [("id", PInt 2); ("name", PStr "Amt");
         ("description", PStr (str_repeat "a" 201))].

Definition dataset_of (services : list pyval) : pyval :=
  PDict [("data", PList services)].

(** Search, read on the fields of the results themselves: every result
    shows the query in its name or in its description. *)
Definition results_contain_query : Prop :=
  forall data q results r,
    q <> "" ->
    search_services data (PStr q) = Ok results ->
    In r results ->
    value_contains q (sr_name r) = true \/ value_contains q (sr_description r) = true.

(** Truncation, with the whole returned description a prefix of the
    original one. *)
Definition truncated_is_prefix : Prop :=
  forall data q results service r,
    search_services data (PStr q) = Ok results ->
    In (service, r) (combine (filter (matches q) (records data)) results) ->
    (200 < String.length (text_field service "description"))%nat ->
    exists s, sr_description r = PStr s /\ String.length s = 203%nat
              /\ String.prefix s (text_field service "description") = true.

(** A JSON object. *)
Definition mapping (v : pyval) : Prop :=
  match v with
  | PDict _ => True
  | _ => False
  end.

(** The test of [get_service_by_id]: both identifiers in string form. *)
Definition same_id (service_id service : pyval) : bool :=
  (py_str (field service "id" PNone) =? py_str service_id)%string.

Definition numbered (n : Z) : pyval :=
  PDict [("id", PInt n); ("name", PStr ("Service " +++ str_of_Z n))].

Definition list_projection (service : pyval) : list_item :=
  ListItem (field service "id" PNone) (field service "name" PNone)
           (field (field service "meta" (PDict [])) "url" (PStr "")).

(** A record [list_all_services] can project: a mapping whose ["meta"]
    entry, when present, is a mapping. *)
Definition listable (service : pyval) : Prop :=
  match service with
  | PDict d =>
      match dict_get d "meta" with
      | None | Some (PDict _) => True
      | Some _ => False
      end
  | _ => False
  end.

(** The ways the first fetch fails, with the exception that comes out:
    the request itself, a status outside 2xx, a body that is not JSON. *)
Inductive fetch_failure : result response -> exn -> Prop :=
| request_error (e : exn) : fetch_failure (Err e) e
| bad_status (r : response) :
    (200 <=? status_code r) && (status_code r <? 300) = false ->
    fetch_failure (Ok r) (status_error r)
| bad_json (r : response) (e : exn) :
    (200 <=? status_code r) && (status_code r <? 300) = true ->
    json r = Err e ->
    fetch_failure (Ok r) e.

(** Sample networks. *)
Definition serves (doc : pyval) : network :=
  fun _ => Ok (Response 200 (Raise "HTTPStatusError" "") (Ok doc)).

Definition unreachable : network :=
  fun _ => Err (Raise "ConnectError" "All connection attempts failed").

Definition not_found : response :=
  Response 404 (Raise "HTTPStatusError" "Client error '404 Not Found'") (Ok PNone).

Definition garbled : response :=
  Response 200 (Raise "HTTPStatusError" "")
           (Err (Raise "JSONDecodeError" "Expecting value: line 1 column 1 (char 0)")).

(** The network that fails once and then serves the sample. *)
Definition flaky (first : result response) : network :=
  fun n => match n with
           | O => first
           | S _ => Ok (Response 200 (Raise "HTTPStatusError" "") (Ok sample))
           end.

(** The four operations [call_tool] knows. *)
Definition known_tool (name : string) : bool :=
  (name =? "search_services")%string || (name =? "get_service_details")%string
  || (name =? "list_services")%string || (name =? "get_services_stats")%string.

(** Parameter validation, read as coming before the dataset is loaded: a
    missing or empty required parameter gives the parameter message
    whatever the network does. *)
Definition parameters_checked_first : Prop :=
  forall net p arguments,
    mapping arguments ->
    (truthy (field arguments "query" (PStr "")) = false ->
     fst (call_tool net "search_services" arguments p)
     = text_content "Error: query parameter is required")
    /\ (truthy (field arguments "service_id" (PStr "")) = false ->
        fst (call_tool net "get_service_details" arguments p)
        = text_content "Error: service_id parameter is required").

(** ** The formatter's sections *)

(** The lines in front of the Prerequisites section. *)
Definition lines_before_prerequisites (service : pyval) : result (list pyval) :=
  lines <- head_lines service ;;
  add_requirements service lines.

(** The sections behind it, appended to [lines]. *)
Definition later_sections (service : pyval) (lines : list pyval) : result (list pyval) :=
  lines <- add_forms service lines ;;
  lines <- add_online service lines ;;
  lines <- add_appointment service lines ;;
  lines <- add_authorities service lines ;;
  add_legal service lines.

(** A step of the formatter that only appends to [lines]: run on any list
    it adds what it adds to the empty one. *)
Definition appends (f : list pyval -> result (list pyval)) : Prop :=
  forall lines, f lines = (new <- f [] ;; Ok (lines ++ new)).

(** The value of ["prerequisites"] when it is a sequence. *)
Definition prerequisites_of (service : pyval) : list pyval :=
  match field service "prerequisites" (PList []) with
  | PList l => l
  | _ => []
  end.

(** The Prerequisites section as the code decides it: nothing for an empty
    sequence or when the first entry is named "keine", otherwise the
    heading and one bullet per entry. *)
Definition prerequisites_section (service : pyval) : list pyval :=
  match prerequisites_of service with
  | [] => []
  | first :: _ =>
      if is_str (field first "name" PNone) "keine"
      then []
      else PStr (nl +++ "## Prerequisites")
           :: map (fun prereq => PStr ("- " +++ py_str (field prereq "name" (PStr "N/A"))))
                  (prerequisites_of service)
  end.

Definition keine : pyval := PDict [("name", PStr "keine")].
Definition ausweis : pyval := PDict [("name", PStr "Ausweis")].

(** The rule with the sentinel read as the whole list: the output shows the
    section exactly when the sequence is neither empty nor [[keine]]. *)
Definition section_unless_sole_sentinel : Prop :=
  forall service text,
    format_service_details service = Ok text ->
    (py_in "## Prerequisites" text = true
     <-> prerequisites_of service <> [] /\ prerequisites_of service <> [keine]).

Definition with_ausweis : pyval :=
  PDict [("name", PStr "Anmeldung"); ("prerequisites", PList [ausweis])].

Definition keine_then_ausweis : pyval :=
  PDict [("name", PStr "Anmeldung"); ("prerequisites", PList [keine; ausweis])].

(** ** Records with and without their fields *)

(** The assignment [d[k] = v]. *)
Fixpoint put (k : string) (v : pyval) (d : list (string * pyval))
  : list (string * pyval) :=
  match d with
  | [] => [(k, v)]
  | (k', v') :: r =>
      if (k' =? k)%string then (k', v) :: r else (k', v') :: put k v r
  end.

Definition optional (d : list (string * pyval)) (k : string) (P : pyval -> Prop) : Prop :=
  match dict_get d k with
  | Some v => P v
  | None => True
  end.

Definition text_value (v : pyval) : Prop :=
  match v with
  | PStr _ => True
  | _ => False
  end.

(** A sequence of mappings, each satisfying [P]. *)
Definition entries (P : list (string * pyval) -> Prop) (v : pyval) : Prop :=
  match v with
  | PList l => Forall (fun e => match e with PDict d => P d | _ => False end) l
  | _ => False
  end.

(** A Service record of the data model: a mapping in which every field the
    formatter reads is either absent or of its kind (text for the fields
    joined as they are, mappings and sequences of mappings for the nested
    ones).  [name], [id], the URL and the links may hold any value. *)
Definition service_record (service : pyval) : Prop :=
  match service with
  | PDict d =>
      optional d "meta" mapping
      /\ optional d "description" text_value
      /\ optional d "fees" text_value
      /\ optional d "process_time" text_value
      /\ optional d "requirements" (entries (fun e => optional e "description" text_value))
      /\ optional d "prerequisites" (entries (fun _ => True))
      /\ optional d "forms" (entries (fun _ => True))
      /\ optional d "onlineprocessing" mapping
      /\ optional d "appointment" mapping
      /\ optional d "authorities" (entries (fun _ => True))
      /\ optional d "legal" (entries (fun _ => True))
  | _ => False
  end.

(** The placeholder rule for the description of a requirement: a
    requirement without description renders as one with the description
    "N/A". *)
Definition requirement_description_placeholder : Prop :=
  forall d before e after,
    dict_get d "requirements" = Some (PList (before ++ PDict e :: after)) ->
    dict_get e "description" = None ->
    format_service_details
      (PDict (put "requirements"
                (PList (before ++ PDict (put "description" (PStr "N/A") e) :: after)) d))
    = format_service_details (PDict d).

Definition bare_requirement : pyval :=
  PDict [("name", PStr "Anmeldung"); ("requirements", PList [PDict []])].

(** Seven authorities, named and unnamed, and a record that lists them. *)
Definition seven : list pyval :=
  [PDict [("name", PStr "A1")]; PDict [("name", PStr "A2")];
   PDict [("name", PStr "A3")]; PDict []; PDict [("name", PStr "A5")];
   PDict [("name", PStr "A6")]; PDict [("name", PStr "A7")]].

Definition seven_authorities : pyval :=
  PDict [("name", PStr "Anmeldung"); ("authorities", PList seven)].

(** The invocations of the end-to-end scenario. *)
Definition scenario : list (string * pyval) :=
  [("search_services", PDict [("query", PStr "anmeld")]);
   ("get_service_details", PDict [("service_id", PStr "7")]);
   ("get_service_details", PDict [("service_id", PStr "999")])].

(* ================================================================== *)
(** * Further statements: declarations and sample data *)

(** A record whose name is the JSON value null. *)
Definition nameless : pyval :=
  PDict [("id", PInt 9); ("name", PNone); ("description", PStr "Pass beantragen")].

(** A record without identifier. *)
Definition unnumbered : pyval :=
  PDict [("name", PStr "Ummeldung"); ("description", PStr "Change your address")].

(** The header of the search response for [n] results. *)
Definition search_header (n : nat) (query : string) : string :=
  "Found " +++ str_of_nat n +++ " service(s) matching '" +++ query +++ "':" +++ nl +++ nl.

(** The header of the listing for [n] entries of a dataset that states
    [total] as its count. *)
Definition list_header (n : nat) (total : pyval) : string :=
  "Berlin Administrative Services (showing " +++ str_of_nat n
  +++ " of " +++ py_str total +++ " total):" +++ nl +++ nl.

Definition not_found_message (service_id : pyval) : string :=
  "Service with ID '" +++ py_str service_id +++ "' not found".

(** The nine lines every document opens with, for a record whose
    description, fees and process time are the given texts. *)
Definition opening (service : pyval) (description fees process_time : string) : list string :=
  [ "# " +++ py_str (field service "name" (PStr "N/A"));
    nl +++ "**ID:** " +++ py_str (field service "id" (PStr "N/A"));
    "**URL:** " +++ py_str (field (field service "meta" (PDict [])) "url" (PStr "N/A"));
    nl +++ "## Description";
    description;
    nl +++ "## Fees";
    fees;
    nl +++ "## Process Time";
    process_time ].

(** The bullet of a form or of a legal reference: a markdown link when the
    entry has a link that is not empty, the bare name otherwise. *)
Definition link_bullet (entry : pyval) : pyval :=
  let name := py_str (field entry "name" (PStr "N/A")) in
  let link := field entry "link" (PStr "") in
  if truthy link
  then PStr ("- [" +++ name +++ "](" +++ py_str link +++ ")")
  else PStr ("- " +++ name).

(** The two lines of a requirement. *)
Definition requirement_entry (req : pyval) : list pyval :=
  [PStr (nl +++ "### " +++ py_str (field req "name" (PStr "N/A")));
   field req "description" (PStr "")].

(** A section that shows one link under a heading. *)
Definition link_section (heading label : string) (link : pyval) : list pyval :=
  if truthy link
  then [PStr (nl +++ heading); PStr ("[" +++ label +++ "](" +++ py_str link +++ ")")]
  else [].

Definition with_null_fees : pyval :=
  PDict [("name", PStr "Anmeldung"); ("fees", PNone)].

Definition with_forms : pyval :=
  PDict [("name", PStr "Anmeldung");
         ("forms", PList [PDict [("name", PStr "Antrag"); ("link", PStr "https://example.org/a")];
                          PDict [("name", PStr "Merkblatt"); ("link", PStr "")];
                          PDict []])].

(** ** The declared tools *)

(** [mcp.types.Tool], with the fields [list_tools] sets. *)
Module Tool.

Record t : Type := make {
  name : string;
  description : string;
  inputSchema : pyval
}.

End Tool.

(** The list [list_tools] returns. *)
Definition list_tools : list Tool.t :=
  [ Tool.make "search_services"
      "Search for Berlin administrative services by name or description. Returns a list of matching services with basic information."
      (PDict [("type", PStr "object");
              ("properties",
               PDict [("query",
                       PDict [("type", PStr "string");
                              ("description",
                               PStr "Search query (searches in service name and description)")])]);
              ("required", PList [PStr "query"])]);
    Tool.make "get_service_details"
      "Get detailed information about a specific Berlin service by its ID. Returns comprehensive information including requirements, forms, fees, appointments, and more."
      (PDict [("type", PStr "object");
              ("properties",
               PDict [("service_id",
                       PDict [("type", PStr "string");
                              ("description", PStr "The ID of the service")])]);
              ("required", PList [PStr "service_id"])]);
    Tool.make "list_services"
      "List all available Berlin administrative services. Returns a paginated list of services with their names and IDs."
      (PDict [("type", PStr "object");
              ("properties",
               PDict [("limit",
                       PDict [("type", PStr "number");
                              ("description",
                               PStr "Maximum number of services to return (default: 50, max: 200)");
                              ("default", PInt 50)])])]);
    Tool.make "get_services_stats"
      "Get statistics about the Berlin services dataset (total count, last update, etc.)"
      (PDict [("type", PStr "object");
              ("properties", PDict [])]) ].

(** The name is one of the declared tools. *)
Definition declared (n : string) : bool :=
  existsb (String.eqb n) (map Tool.name list_tools).

(** The parameters a tool's schema lists under ["required"]. *)
Definition required_parameters (tool : Tool.t) : list pyval :=
  match field (Tool.inputSchema tool) "required" (PList []) with
  | PList l => l
  | _ => []
  end.

(** The default a tool's schema states for a parameter, [PNone] when it
    states none. *)
Definition schema_default (tool : Tool.t) (parameter : string) : pyval :=
  field (field (field (Tool.inputSchema tool) "properties" (PDict [])) parameter (PDict []))
        "default" PNone.

(** The first character of a text, [None] for the empty text. *)
Definition first_char (s : string) : option ascii :=
  match s with
  | String c _ => Some c
  | EmptyString => None
  end.

(* ================================================================== *)
(** * The document of the specification *)

(** The value under [k] when it is a sequence, the empty one otherwise. *)
Definition sequence_of (service : pyval) (k : string) : list pyval :=
  match field service k (PList []) with
  | PList l => l
  | _ => []
  end.

Definition authority_bullet (auth : pyval) : pyval :=
  PStr ("- " +++ py_str (field auth "name" (PStr "N/A"))).

(** A section over the entries [l]: left out when there are none. *)
Definition under_heading (heading : string) (l body : list pyval) : list pyval :=
  match l with
  | [] => []
  | _ => PStr (nl +++ heading) :: body
  end.

(** The lines of the document in the words of the specification: the
    sections in their fixed order, a missing field shown as "N/A" (through
    [opening], [requirement_entry], [prerequisites_section], [link_bullet]
    and [authority_bullet]), with the one default the code sets otherwise:
    the description of a requirement, empty when missing. *)
Definition document (service : pyval) : list pyval :=
  let shown k := py_str (field service k (PStr "N/A")) in
  let authorities := sequence_of service "authorities" in
  map PStr (opening service (shown "description") (shown "fees") (shown "process_time"))
  ++ under_heading "## Requirements" (sequence_of service "requirements")
       (flat_map requirement_entry (sequence_of service "requirements"))
  ++ prerequisites_section service
  ++ under_heading "## Forms" (sequence_of service "forms")
       (map link_bullet (sequence_of service "forms"))
  ++ link_section "## Online Processing" "Process online"
       (field (field service "onlineprocessing" (PDict [])) "link" PNone)
  ++ link_section "## Appointment" "Book appointment"
       (field (field service "appointment" (PDict [])) "link" PNone)
  ++ under_heading "## Responsible Authorities" authorities
       (map authority_bullet (firstn 5 authorities)
        ++ (if (5 <? List.length authorities)%nat
            then [PStr ("- ... and " +++ str_of_nat (List.length authorities - 5)
                        +++ " more")]
            else []))
  ++ under_heading "## Legal Basis" (sequence_of service "legal")
       (map link_bullet (sequence_of service "legal")).

(** A record with nothing but one empty entry in each nested sequence, and
    the text it renders as: every field it lacks shows as "N/A", the
    description of its requirement as an empty line. *)
Definition hollow : pyval :=
  PDict [("requirements", PList [PDict []]);
         ("prerequisites", PList [PDict []]);
         ("forms", PList [PDict []]);
         ("authorities", PList [PDict []]);
         ("legal", PList [PDict []])].

Definition hollow_text : string :=
  join nl [ "# N/A";
            nl +++ "**ID:** N/A";
            "**URL:** N/A";
            nl +++ "## Description";
            "N/A";
            nl +++ "## Fees";
            "N/A";
            nl +++ "## Process Time";
            "N/A";
            nl +++ "## Requirements";
            nl +++ "### N/A";
            "";
            nl +++ "## Prerequisites";
            "- N/A";
            nl +++ "## Forms";
            "- N/A";
            nl +++ "## Responsible Authorities";
            "- N/A";
            nl +++ "## Legal Basis";
            "- N/A" ].

(* ================================================================== *)
(** * Overlapping calls of the fetcher

    [fetch_services_data] is a coroutine: between the test of the cache and
    the assignment it suspends at [await client.get(...)], and other calls
    run meanwhile.  Here a call is cut at that point.  Between two
    suspension points a call runs without interruption, as the event loop
    runs one task at a time. *)

(** The process together with the requests whose calls wait for the reply. *)
Record world : Type := World {
  proc : process;
  waiting : list nat
}.

(** What the event loop does next: start a call of [fetch_services_data],
    or hand the reply to request [n] to the call that waits for it. *)
Inductive event : Type :=
| Call
| Reply (n : nat).

Definition is_call (ev : event) : bool :=
  match ev with
  | Call => true
  | Reply _ => false
  end.

(** The call up to its suspension: it returns the cached value at once, or
    sends its request and waits. *)
Definition call_begins (w : world) : world * option (result pyval) :=
  let p := proc w in
  if negb (is_none (_services_cache p))
  then (w, Some (Ok (_services_cache p)))
  else (World (Process (_services_cache p) (S (requests p))) (requests p :: waiting w),
        None).

(** The call from its suspension on: the status check, the parse and the
    assignment to the global, or the exception. *)
Definition call_resumes (net : network) (n : nat) (w : world)
  : world * option (result pyval) :=
  if existsb (Nat.eqb n) (waiting w)
  then
    let others := filter (fun m => negb (Nat.eqb n m)) (waiting w) in
    match fetched (net n) with
    | Ok v => (World (Process v (requests (proc w))) others, Some (Ok v))
    | Err e => (World (proc w) others, Some (Err e))
    end
  else (w, None).

Definition fetch_step (net : network) (ev : event) (w : world)
  : world * option (result pyval) :=
  match ev with
  | Call => call_begins w
  | Reply n => call_resumes net n w
  end.

(** A schedule of events, with what the calls that end return, in order. *)
Fixpoint run_events (net : network) (evs : list event) (w : world)
  : world * list (result pyval) :=
  match evs with
  | [] => (w, [])
  | ev :: rest =>
      let (w1, out) := fetch_step net ev w in
      let (w2, outs) := run_events net rest w1 in
      (w2, match out with Some o => o :: outs | None => outs end)
  end.

(** The claim on the cache, read over every schedule: once some call has
    returned a value, whatever happens afterwards leaves the cache and the
    number of requests as they are. *)
Definition cache_fixed_after_first_success : Prop :=
  forall net before after w1 w2 outs1 outs2 d,
    run_events net before (World start []) = (w1, outs1) ->
    In (Ok d) outs1 ->
    run_events net after w1 = (w2, outs2) ->
    _services_cache (proc w2) = _services_cache (proc w1)
    /\ requests (proc w2) = requests (proc w1).

(** The network whose first reply is the sample and whose later replies are
    the dataset with one numbered record. *)
Definition changing : network :=
  fun n => match n with
           | O => Ok (Response 200 (Raise "HTTPStatusError" "") (Ok sample))
           | S _ => Ok (Response 200 (Raise "HTTPStatusError" "")
                          (Ok (dataset_of [numbered 1])))
           end.

(* ================================================================== *)
(** * Lemmas on strings and on the error monad *)

Lemma bind_Ok {A B : Type} (c : result A) (k : A -> result B) (b : B) :
  bind c k = Ok b -> exists a, c = Ok a /\ k a = Ok b.
Proof.
  destruct c as [a|e]; simpl; intros H; [exists a; auto | discriminate].
Qed.

(** Split a successful [x <- c ;; k] into its two steps. *)
Ltac bind_inv H :=
  let x := fresh "x" in
  let Hx := fresh "H" x in
  apply bind_Ok in H; destruct H as (x & Hx & H).

Lemma py_get_Ok v k dflt r :
  py_get v k dflt = Ok r -> exists d, v = PDict d /\ r = field v k dflt.
Proof.
  destruct v; simpl; try discriminate.
  intros H; injection H as <-. eexists; eauto.
Qed.

Lemma py_get_dict d k dflt : py_get (PDict d) k dflt = Ok (field (PDict d) k dflt).
Proof. reflexivity. Qed.

Lemma py_lower_Ok v r : py_lower v = Ok r -> exists s, v = PStr s /\ r = lower s.
Proof.
  destruct v; simpl; try discriminate.
  intros H; injection H as <-. eexists; eauto.
Qed.

Lemma length_append (s t : string) :
  String.length (s +++ t) = (String.length s + String.length t)%nat.
Proof. induction s; simpl; congruence. Qed.

Lemma length_str_take (n : nat) (s : string) :
  String.length (str_take n s) = Nat.min n (String.length s).
Proof.
  revert s; induction n; intros [|c r]; simpl; auto.
Qed.

Lemma str_take_append (n : nat) (s t : string) :
  (n <= String.length s)%nat -> str_take n (s +++ t) = str_take n s.
Proof.
  revert s; induction n; intros [|c r]; simpl; intros H; auto; try lia.
  f_equal. apply IHn. lia.
Qed.

Lemma str_take_all (n : nat) (s : string) :
  (String.length s <= n)%nat -> str_take n s = s.
Proof.
  revert s; induction n; intros [|c r]; simpl; intros H; auto; try lia.
  f_equal. apply IHn. lia.
Qed.

Lemma prefix_str_take (n : nat) (s : string) : String.prefix (str_take n s) s = true.
Proof.
  revert s; induction n; intros [|c r]; simpl; auto.
  destruct (ascii_dec c c); [apply IHn | congruence].
Qed.

(* ================================================================== *)
(** * Search *)

Lemma slice_stop_nonneg (len : nat) (n : Z) : 0 <= n -> slice_stop len n = Z.to_nat n.
Proof. unfold slice_stop. intros H. destruct (n <? 0) eqn:E; [lia | reflexivity]. Qed.

Lemma description_entry_text d s :
  dict_get d "description" = Some (PStr s) \/ (dict_get d "description" = None /\ s = "") ->
  description_entry (PDict d) = Ok (PStr (truncate_description s)).
Proof.
  intros H. unfold description_entry, truncate_description. simpl.
  assert (E : match dict_get d "description" with Some x => x | None => PStr "" end = PStr s).
  { destruct H as [-> | [-> ->]]; reflexivity. }
  rewrite E. simpl.
  destruct (200 <? String.length s)%nat; reflexivity.
Qed.

(** One turn of the loop: a record that passes the two [.lower()] calls is
    searchable, and it is kept exactly when it matches. *)
Lemma search_step_Ok q service r :
  search_step (lower q) service = Ok r ->
  searchable service /\
  r = if matches q service then Some (search_projection service) else None.
Proof.
  unfold search_step. intros H.
  bind_inv H. apply py_get_Ok in Hx as (d & -> & ->).
  bind_inv H. apply py_lower_Ok in Hx as (name & Hname & ->).
  bind_inv H. rewrite py_get_dict in Hx. injection Hx as <-.
  bind_inv H. apply py_lower_Ok in Hx as (desc & Hdesc & ->).
  simpl in Hname, Hdesc.
  assert (Tn : text_field (PDict d) "name" = name)
    by (unfold text_field; simpl; now rewrite Hname).
  assert (Td : text_field (PDict d) "description" = desc)
    by (unfold text_field; simpl; now rewrite Hdesc).
  assert (S : searchable (PDict d)).
  { simpl in *. unfold text_or_missing.
    destruct (dict_get d "name") as [[]|]; try discriminate;
    destruct (dict_get d "description") as [[]|]; try discriminate; auto. }
  split; [exact S|].
  unfold matches, icontains. rewrite Tn, Td.
  destruct (py_in (lower q) (lower name) || py_in (lower q) (lower desc)).
  - rewrite !py_get_dict in H. simpl bind in H.
    rewrite (description_entry_text d desc) in H.
    + simpl bind in H.
      bind_inv H. apply py_get_Ok in Hx as (m & Hm & ->).
      injection H as <-. unfold search_projection. rewrite Td.
      reflexivity.
    + simpl in Hdesc. destruct (dict_get d "description") as [v|]; [left | right].
      * now rewrite Hdesc.
      * injection Hdesc as <-. auto.
  - now injection H as <-.
Qed.

Lemma search_loop_Ok q services acc results :
  search_loop (lower q) services acc = Ok results ->
  Forall searchable services /\
  results = acc ++ map search_projection (filter (matches q) services).
Proof.
  revert acc. induction services as [|service rest IH]; simpl; intros acc H.
  - injection H as <-. split; [constructor | now rewrite app_nil_r].
  - bind_inv H. apply search_step_Ok in Hx as (S & ->).
    apply IH in H as (F & ->). split; [now constructor|].
    destruct (matches q service); simpl; [now rewrite <- app_assoc | reflexivity].
Qed.

(** What a successful search returns: the matching records, in dataset
    order, each projected. *)
Lemma search_services_Ok data q results :
  search_services data (PStr q) = Ok results ->
  results = map search_projection (filter (matches q) (records data)).
Proof.
  unfold search_services. simpl bind. intros H.
  bind_inv H. apply py_get_Ok in Hx as (d & -> & ->).
  bind_inv H. apply search_loop_Ok in H as (F & ->). simpl.
  unfold records.
  destruct (field (PDict d) "data" (PList [])) as [| | | s | l | kv] eqn:E;
    simpl in Hx; try discriminate; injection Hx as <-.
  - (* a str: its characters are not mappings *)
    destruct s as [|c s]; [reflexivity|]. simpl in F. inversion F as [|? ? S _]. destruct S.
  - reflexivity.
  - (* a dict: its keys are not mappings *)
    destruct kv as [|[k v] kv]; [reflexivity|]. simpl in F. inversion F as [|? ? S _].
    destruct S.
Qed.

(** On searchable records the loop does not raise as long as nothing matches. *)
Lemma search_step_no_match q service :
  searchable service -> matches q service = false ->
  search_step (lower q) service = Ok None.
Proof.
  destruct service as [| | | | |d]; simpl; try contradiction.
  intros [Hn Hd] M. unfold search_step. rewrite !py_get_dict.
  unfold matches, icontains, text_field in M. unfold text_or_missing in Hn, Hd. simpl in *.
  destruct (dict_get d "name") as [[]|]; try contradiction;
  destruct (dict_get d "description") as [[]|]; try contradiction;
  simpl in *; rewrite M; reflexivity.
Qed.

Lemma search_loop_no_match q services acc :
  Forall searchable services ->
  Forall (fun service => matches q service = false) services ->
  search_loop (lower q) services acc = Ok acc.
Proof.
  revert acc. induction services as [|service rest IH]; simpl; intros acc S M; [reflexivity|].
  inversion S; inversion M; subst.
  rewrite search_step_no_match by assumption. simpl. now apply IH.
Qed.

(** [py_in] is the substring test. *)
Lemma prefix_iff (s t : string) :
  String.prefix s t = true <-> exists post, t = s +++ post.
Proof.
  revert t; induction s as [|c s IH]; intros t; simpl.
  - split; [intros _; exists t; reflexivity | destruct t; reflexivity].
  - destruct t as [|c' t].
    + split; [discriminate | intros [post H]; discriminate].
    + simpl. destruct (ascii_dec c c') as [->|N].
      * rewrite IH. split; intros [post H]; exists post; congruence.
      * split; [discriminate | intros [post H]; congruence].
Qed.

Lemma py_in_iff (needle hay : string) :
  py_in needle hay = true <-> exists pre post, hay = pre +++ needle +++ post.
Proof.
  induction hay as [|c hay IH]; cbn [py_in].
  - rewrite orb_false_r, prefix_iff. split.
    + intros [post H]. exists "", post. exact H.
    + intros ([|c pre] & post & H); [exists post; exact H | discriminate].
  - rewrite orb_true_iff, IH, prefix_iff. split.
    + intros [[post H] | (pre & post & H)].
      * exists "", post. exact H.
      * exists (String c pre), post. simpl. now rewrite H.
    + intros ([|c' pre] & post & H).
      * left. exists post. exact H.
      * right. exists pre, post. simpl in H. congruence.
Qed.

Lemma truncate_long (d : string) :
  (200 < String.length d)%nat ->
  truncate_description d = str_take 200 d +++ "..."
  /\ String.length (truncate_description d) = 203%nat
  /\ str_take 200 (truncate_description d) = str_take 200 d.
Proof.
  intros H. unfold truncate_description.
  destruct (Nat.ltb_spec 200 (String.length d)) as [_|]; [|lia].
  assert (L : String.length (str_take 200 d) = 200%nat) by (rewrite length_str_take; lia).
  repeat split.
  - rewrite length_append, L. reflexivity.
  - rewrite str_take_append by lia. apply str_take_all. lia.
Qed.

Lemma truncate_short (d : string) :
  (String.length d <= 200)%nat -> truncate_description d = d.
Proof.
  intros H. unfold truncate_description.
  destruct (Nat.ltb_spec 200 (String.length d)); [lia | reflexivity].
Qed.

(** C1, as amended.  Every result of a search is the projection of a record
    of the dataset whose own name or description (before truncation)
    contains the query, ignoring case; and on a dataset whose records are
    mappings with text names and descriptions, a query that no record
    contains gives the empty list, not an exception. *)
Theorem search_results_match (data : pyval) (q : string) :
  (forall results,
      q <> "" ->
      search_services data (PStr q) = Ok results ->
      Forall (fun r => exists service,
                  In service (records data) /\ matches q service = true
                  /\ r = search_projection service) results)
  /\ (dataset data ->
      Forall searchable (records data) ->
      Forall (fun service => matches q service = false) (records data) ->
      search_services data (PStr q) = Ok []).
Proof.
  split.
  - intros results _ H. apply search_services_Ok in H as ->.
    apply Forall_forall. intros r Hr. apply in_map_iff in Hr as (service & <- & Hs).
    apply filter_In in Hs as [Hin Hm]. exists service. auto.
  - intros D S M. unfold search_services. simpl bind.
    destruct data as [| | | | |d]; simpl in D; try contradiction.
    rewrite py_get_dict. simpl bind. unfold records in S, M. simpl in *.
    destruct (dict_get d "data") as [[]|]; try contradiction; simpl;
      first [reflexivity | now apply search_loop_no_match].
Qed.

Lemma search_results_match_witness :
  Forall (fun r => exists service,
              In service (records sample) /\ matches "anmeld" service = true
              /\ r = search_projection service) [search_projection anmeldung]
  /\ search_services sample (PStr "passport") = Ok [].
Proof.
  split.
  - apply (proj1 (search_results_match sample "anmeld")); [discriminate | reflexivity].
  - apply (proj2 (search_results_match sample "passport")).
    + exact I.
    + repeat constructor.
    + repeat constructor.
Defined.

(** C1 as stated fails: the match lies beyond character 200 of the
    description, so the truncated description of the result does not show
    it, and neither does the name. *)
Lemma search_hides_late_match : ~ results_contain_query.
Proof.
  intros C.
  destruct (C (dataset_of [late_match]) "xyz" [search_projection late_match]
              (search_projection late_match)) as [H|H].
  - discriminate.
  - vm_compute. reflexivity.
  - left. reflexivity.
  - vm_compute in H. discriminate.
  - vm_compute in H. discriminate.
Qed.

(** C2, as amended.  The results pair up, in order, with the matching
    records.  When the record's description is longer than 200 characters
    the returned one is its first 200 characters followed by "...": its
    length is 203 and its first 200 characters are a prefix of the original.
    Otherwise the description is returned as it is. *)
Theorem description_truncation (data : pyval) (q : string) (results : list search_result) :
  search_services data (PStr q) = Ok results ->
  Forall2 (fun service r =>
             let d := text_field service "description" in
             ((200 < String.length d)%nat ->
              exists s, sr_description r = PStr s
                        /\ s = str_take 200 d +++ "..."
                        /\ String.length s = 203%nat
                        /\ String.prefix (str_take 200 s) d = true)
             /\ ((String.length d <= 200)%nat -> sr_description r = PStr d))
          (filter (matches q) (records data)) results.
Proof.
  intros H. apply search_services_Ok in H as ->.
  induction (filter (matches q) (records data)) as [|service l IH];
    cbn [map]; constructor; auto.
  cbv zeta. unfold search_projection at 1 2. cbn [sr_description]. split.
  - intros L. destruct (truncate_long _ L) as (E & Len & T).
    exists (truncate_description (text_field service "description")).
    repeat split; auto. rewrite T. apply prefix_str_take.
  - intros L. now rewrite truncate_short.
Qed.

Lemma description_truncation_witness :
  Forall2 (fun service r =>
             let d := text_field service "description" in
             ((200 < String.length d)%nat ->
              exists s, sr_description r = PStr s
                        /\ s = str_take 200 d +++ "..."
                        /\ String.length s = 203%nat
                        /\ String.prefix (str_take 200 s) d = true)
             /\ ((String.length d <= 200)%nat -> sr_description r = PStr d))
          (filter (matches "a") (records (dataset_of [anmeldung; just_too_long])))
          [search_projection anmeldung; search_projection just_too_long].
Proof.
  apply (description_truncation (dataset_of [anmeldung; just_too_long]) "a").
  vm_compute. reflexivity.
Defined.

(** C2 as stated fails: for a description of 201 characters the returned
    one is longer than the original, so it is no prefix of it. *)
Lemma truncated_not_prefix : ~ truncated_is_prefix.
Proof.
  intros C.
  destruct (C (dataset_of [just_too_long]) "a" [search_projection just_too_long]
              just_too_long (search_projection just_too_long)) as (s & Hs & _ & P).
  - vm_compute. reflexivity.
  - left. reflexivity.
  - vm_compute. lia.
  - injection Hs as <-. vm_compute in P. discriminate.
Qed.

(* ================================================================== *)
(** * Lookup by identifier *)

Lemma py_iter_records data (d : list (string * pyval)) :
  data = PDict d -> dataset data ->
  py_iter (field data "data" (PList [])) = Ok (records data).
Proof.
  intros -> D. unfold records. simpl in *.
  destruct (dict_get d "data") as [[]|]; try contradiction; reflexivity.
Qed.

Lemma get_service_loop_find services service_id :
  Forall mapping services ->
  get_service_loop services service_id = Ok (find (same_id service_id) services).
Proof.
  induction services as [|service rest IH]; intros M; [reflexivity|].
  inversion M as [|? ? Hs Hr]; subst.
  destruct service; try contradiction.
  cbn [get_service_loop find]. rewrite py_get_dict. cbn [bind].
  unfold same_id at 1.
  destruct (py_str (field (PDict d) "id" PNone) =? py_str service_id)%string; auto.
Qed.

(** C6.  On a dataset whose records are mappings, the lookup returns the
    first record, in dataset order, whose identifier has the same string
    form as the supplied one; so a record with the number 42 as identifier
    makes the lookup of "42" succeed, and an identifier no record carries
    gives the absent result [None], not an exception. *)
Theorem lookup_by_id (data service_id : pyval) :
  dataset data ->
  Forall mapping (records data) ->
  get_service_by_id data service_id = Ok (find (same_id service_id) (records data))
  /\ (forall record,
         In record (records data) -> field record "id" PNone = PInt 42 ->
         exists found, get_service_by_id data (PStr "42") = Ok (Some found)
                       /\ same_id (PStr "42") found = true)
  /\ (Forall (fun record => same_id service_id record = false) (records data) ->
      get_service_by_id data service_id = Ok None).
Proof.
  intros D M.
  assert (G : forall sid, get_service_by_id data sid
                          = Ok (find (same_id sid) (records data))).
  { intros sid. unfold get_service_by_id.
    destruct data as [| | | | |d]; try contradiction.
    rewrite py_get_dict. cbn [bind].
    rewrite (py_iter_records (PDict d) d eq_refl D). cbn [bind].
    now apply get_service_loop_find. }
  split; [apply G | split].
  - intros record Hin Hid. rewrite G.
    destruct (find (same_id (PStr "42")) (records data)) as [found|] eqn:F.
    + exists found. split; [reflexivity|]. now apply find_some in F.
    + apply (find_none _ _ F) in Hin. unfold same_id in Hin. rewrite Hid in Hin.
      discriminate.
  - intros N. rewrite G. f_equal.
    destruct (find (same_id service_id) (records data)) as [found|] eqn:F; [|reflexivity].
    apply find_some in F as [Hin Hs]. rewrite Forall_forall in N.
    rewrite (N _ Hin) in Hs. discriminate.
Qed.

Lemma lookup_by_id_witness :
  get_service_by_id (dataset_of [numbered 7; numbered 42; numbered 42]) (PStr "42")
  = Ok (find (same_id (PStr "42")) (records (dataset_of [numbered 7; numbered 42; numbered 42])))
  /\ get_service_by_id (dataset_of [numbered 7; numbered 42]) (PStr "999") = Ok None.
Proof.
  split.
  - apply (lookup_by_id (dataset_of [numbered 7; numbered 42; numbered 42]) (PStr "42"));
      [exact I | repeat constructor].
  - apply (lookup_by_id (dataset_of [numbered 7; numbered 42]) (PStr "999"));
      [exact I | repeat constructor | repeat constructor].
Defined.

(* ================================================================== *)
(** * Listing *)

Lemma list_step_Ok service :
  listable service -> list_step service = Ok (list_projection service).
Proof.
  destruct service as [| | | | |d]; try contradiction. simpl.
  unfold list_step, list_projection. rewrite !py_get_dict. cbn [bind]. simpl.
  destruct (dict_get d "meta") as [[]|]; try contradiction; reflexivity.
Qed.

Lemma list_loop_Ok services acc :
  Forall listable services ->
  list_loop services acc = Ok (acc ++ map list_projection services).
Proof.
  revert acc. induction services as [|service rest IH]; intros acc L; simpl.
  - now rewrite app_nil_r.
  - inversion L; subst. rewrite list_step_Ok by assumption. cbn [bind].
    rewrite IH by assumption. now rewrite <- app_assoc.
Qed.

(** What the slice of [list_all_services] keeps, for any limit. *)
Lemma list_all_services_Ok data limit :
  dataset data -> Forall listable (records data) ->
  list_all_services data limit
  = Ok (map list_projection
          (firstn (slice_stop (List.length (records data)) limit) (records data))).
Proof.
  intros D L. destruct data as [| | | | |d]; try contradiction.
  unfold list_all_services. rewrite py_get_dict. cbn [bind].
  unfold records in *. simpl in *.
  destruct (dict_get d "data") as [[]|]; try contradiction; simpl.
  - rewrite list_loop_Ok; [reflexivity|].
    apply Forall_forall. intros x Hx. rewrite Forall_forall in L. apply L.
    rewrite <- (firstn_skipn (slice_stop (List.length l) limit) l).
    apply in_or_app. now left.
  - now rewrite firstn_nil.
Qed.

(** For a limit that is not negative the listing is the prefix the
    specification describes: the first [limit] records, all of them when
    there are fewer, none for zero. *)
Lemma list_prefix data limit :
  dataset data -> Forall listable (records data) -> 0 <= limit ->
  list_all_services data limit
  = Ok (map list_projection (firstn (Z.to_nat limit) (records data))).
Proof.
  intros D L H. rewrite list_all_services_Ok by assumption.
  now rewrite slice_stop_nonneg.
Qed.

(** The dispatcher's clamp: an integer limit goes to [list_all_services] as
    [min(limit, 200)]. *)
Lemma limit_clamped (z : Z) :
  (m <- py_min_200 (PInt z) ;; py_index m) = Ok (Z.min z 200).
Proof.
  simpl. destruct (Z.ltb_spec 200 z); simpl; f_equal; lia.
Qed.

(** C4 at the failing input.  A limit of -1 drops the last record instead of
    giving the empty list; the clamp lets it through, so on 202 records the
    listing has 201 entries, more than the maximum of 200. *)
Theorem negative_limit_lists_records :
  list_all_services (dataset_of [numbered 1; numbered 2; numbered 3]) (-1)
  = Ok [list_projection (numbered 1); list_projection (numbered 2)]
  /\ (m <- py_min_200 (PInt (-1)) ;; py_index m) = Ok (-1)
  /\ exists items,
       list_all_services (dataset_of (repeat (numbered 1) 202)) (-1) = Ok items
       /\ List.length items = 201%nat.
Proof.
  split; [reflexivity | split; [reflexivity|]].
  eexists. split; [vm_compute; reflexivity | reflexivity].
Qed.

(* ================================================================== *)
(** * Data fetcher *)

Lemma fetch_cached net p :
  _services_cache p <> PNone ->
  fetch_services_data net p = (Ok (_services_cache p), p).
Proof.
  intros H. unfold fetch_services_data.
  destruct (_services_cache p); try reflexivity. congruence.
Qed.

Lemma fetch_uncached net p :
  _services_cache p = PNone ->
  fetch_services_data net p
  = match fetched (net (requests p)) with
    | Ok v => (Ok v, Process v (S (requests p)))
    | Err e => (Err e, Process PNone (S (requests p)))
    end.
Proof.
  intros H. unfold fetch_services_data. rewrite H. reflexivity.
Qed.

(** A successful call leaves the value it returns in the cache. *)
Lemma fetch_Ok_cached net p d p1 :
  fetch_services_data net p = (Ok d, p1) -> _services_cache p1 = d.
Proof.
  unfold fetch_services_data.
  destruct (negb (is_none (_services_cache p))).
  - intros H; injection H as <- <-. reflexivity.
  - destruct (fetched (net (requests p))); intros H; [|discriminate].
    injection H as <- <-. reflexivity.
Qed.

(** An invocation never writes a cache that is populated. *)
Lemma call_tool_keeps_process net name arguments p :
  _services_cache p <> PNone -> snd (call_tool net name arguments p) = p.
Proof.
  intros H. unfold call_tool, call_tool_try. rewrite fetch_cached by assumption.
  destruct (dispatch name arguments (_services_cache p)); reflexivity.
Qed.

Lemma serve_keeps_process net calls p :
  _services_cache p <> PNone -> snd (serve net calls p) = p.
Proof.
  intros H. induction calls as [|[name arguments] rest IH]; [reflexivity|].
  cbn [serve].
  pose proof (call_tool_keeps_process net name arguments p H) as K.
  destruct (call_tool net name arguments p) as [r p']. simpl in K. subst p'.
  destruct (serve net rest p) as [rs p'']. exact IH.
Qed.

(** The fetcher as one step is the schedule in which the reply comes before
    anything else runs. *)
Lemma fetch_uninterrupted net p :
  run_events net (if is_none (_services_cache p) then [Call; Reply (requests p)] else [Call])
             (World p [])
  = (World (snd (fetch_services_data net p)) [], [fst (fetch_services_data net p)]).
Proof.
  destruct p as [cache sent]. unfold fetch_services_data, call_resumes.
  destruct cache; cbn [_services_cache is_none negb requests]; try reflexivity.
  cbn [run_events fetch_step call_begins call_resumes proc waiting _services_cache
       is_none negb requests].
  unfold call_resumes. cbn [waiting existsb filter proc requests _services_cache].
  rewrite Nat.eqb_refl. cbn [orb negb].
  destruct (fetched (net sent)); reflexivity.
Qed.

(** With the cache populated and no call waiting, no event changes anything:
    a call returns the cached value at once and there is no reply to hand
    over. *)
Lemma fetch_step_settled net ev w :
  _services_cache (proc w) <> PNone ->
  waiting w = [] ->
  fetch_step net ev w
  = (w, if is_call ev then Some (Ok (_services_cache (proc w))) else None).
Proof.
  intros C W. destruct ev as [|n]; cbn [fetch_step is_call].
  - unfold call_begins. destruct (_services_cache (proc w)); try reflexivity. congruence.
  - unfold call_resumes. rewrite W. reflexivity.
Qed.

Lemma run_events_settled net evs w :
  _services_cache (proc w) <> PNone ->
  waiting w = [] ->
  run_events net evs w
  = (w, map (fun _ => Ok (_services_cache (proc w))) (filter is_call evs)).
Proof.
  intros C W. induction evs as [|ev evs IH]; [reflexivity|].
  cbn [run_events]. rewrite (fetch_step_settled net ev w C W), IH.
  destruct ev; reflexivity.
Qed.

Lemma call_resumes_Ok net n w w1 d :
  call_resumes net n w = (w1, Some (Ok d)) -> _services_cache (proc w1) = d.
Proof.
  unfold call_resumes. destruct (existsb (Nat.eqb n) (waiting w)); [|discriminate].
  destruct (fetched (net n)); intros H; [|discriminate].
  injection H as <- <-. reflexivity.
Qed.

(** C9, as amended.  Once a call of the fetcher has come back with a
    dataset (a document other than null) and no other call is waiting for
    a reply, the cache holds that dataset and stays as it is under every
    schedule of later calls and replies, whatever the network would answer:
    each later call returns the cached value at once, no request is sent
    and no call is left waiting; and any sequence of tool invocations
    leaves the process unchanged (with the cache populated an invocation
    never reaches the [await], so invocations cannot overlap). *)
Theorem cache_is_permanent (net : network) (n : nat) (w w1 : world) (d : pyval) :
  call_resumes net n w = (w1, Some (Ok d)) ->
  d <> PNone ->
  waiting w1 = [] ->
  _services_cache (proc w1) = d
  /\ (forall net' evs,
         run_events net' evs w1 = (w1, map (fun _ => Ok d) (filter is_call evs)))
  /\ (forall net' calls, snd (serve net' calls (proc w1)) = proc w1).
Proof.
  intros R N W. apply call_resumes_Ok in R. subst d.
  split; [reflexivity | split].
  - intros net' evs. now apply run_events_settled.
  - intros net' calls. now apply serve_keeps_process.
Qed.

Lemma cache_is_permanent_witness :
  _services_cache (Process sample 1) = sample
  /\ (forall net' evs,
         run_events net' evs (World (Process sample 1) [])
         = (World (Process sample 1) [], map (fun _ => Ok sample) (filter is_call evs)))
  /\ (forall net' calls, snd (serve net' calls (Process sample 1)) = Process sample 1).
Proof.
  apply (cache_is_permanent (serves sample) 0 (World (Process PNone 1) [0%nat])
           (World (Process sample 1) []) sample).
  - reflexivity.
  - discriminate.
  - reflexivity.
Defined.

(** C9 as stated fails when two first calls overlap: both find the cache
    empty and send a request; the first reply is cached and returned, and
    the second reply, a different document, then overwrites the cache. *)
Lemma overlapping_fetch_overwrites_cache : ~ cache_fixed_after_first_success.
Proof.
  intros C.
  destruct (C changing [Call; Call; Reply 0%nat] [Reply 1%nat]
              (World (Process sample 2) [1%nat])
              (World (Process (dataset_of [numbered 1]) 2) [])
              [Ok sample] [Ok (dataset_of [numbered 1])] sample) as [H _].
  - reflexivity.
  - left. reflexivity.
  - reflexivity.
  - cbn [proc _services_cache] in H. discriminate.
Qed.

(** A document that is the JSON value null is returned but leaves the cache
    as it was, so the next call asks the network again. *)
Remark null_document_is_fetched_again :
  fetch_services_data (serves PNone) start = (Ok PNone, Process PNone 1)
  /\ fetch_services_data (serves PNone) (Process PNone 1) = (Ok PNone, Process PNone 2).
Proof. split; reflexivity. Qed.

Lemma fetched_failure reply e : fetch_failure reply e -> fetched reply = Err e.
Proof.
  intros [e' | r S | r e' S J]; unfold fetched, raise_for_status; simpl.
  - reflexivity.
  - now rewrite S.
  - now rewrite S.
Qed.

(** C10.  When the cache is empty and the fetch fails (in the request, on the
    status or in parsing), the exception reaches the caller, the cache stays
    empty, and the next call sends a new request whose reply decides its
    outcome. *)
Theorem failed_fetch_not_cached (net : network) (p : process) (e : exn) :
  _services_cache p = PNone ->
  fetch_failure (net (requests p)) e ->
  let p' := snd (fetch_services_data net p) in
  fst (fetch_services_data net p) = Err e
  /\ _services_cache p' = PNone
  /\ requests p' = S (requests p)
  /\ fst (fetch_services_data net p') = fetched (net (S (requests p)))
  /\ requests (snd (fetch_services_data net p')) = S (S (requests p)).
Proof.
  intros C F. cbv zeta. rewrite (fetch_uncached net p C).
  rewrite (fetched_failure _ _ F). cbn [fst snd _services_cache requests].
  repeat split.
  - rewrite fetch_uncached by reflexivity. cbn [requests].
    destruct (fetched (net (S (requests p)))); reflexivity.
  - rewrite fetch_uncached by reflexivity. cbn [requests].
    destruct (fetched (net (S (requests p)))); reflexivity.
Qed.

Lemma failed_fetch_not_cached_witness :
  (let p' := snd (fetch_services_data (flaky (Ok not_found)) start) in
   fst (fetch_services_data (flaky (Ok not_found)) start) = Err (status_error not_found)
   /\ _services_cache p' = PNone
   /\ requests p' = 1%nat
   /\ fst (fetch_services_data (flaky (Ok not_found)) p')
      = fetched (flaky (Ok not_found) 1%nat)
   /\ requests (snd (fetch_services_data (flaky (Ok not_found)) p')) = 2%nat)
  /\ fst (fetch_services_data (flaky (Ok garbled)) start)
     = Err (Raise "JSONDecodeError" "Expecting value: line 1 column 1 (char 0)").
Proof.
  split.
  - apply (failed_fetch_not_cached (flaky (Ok not_found)) start (status_error not_found)).
    + reflexivity.
    + apply bad_status. reflexivity.
  - apply (failed_fetch_not_cached (flaky (Ok garbled)) start).
    + reflexivity.
    + apply bad_json; reflexivity.
Defined.

(* ================================================================== *)
(** * Tool dispatcher *)

Lemma call_tool_loaded net name arguments p data p' :
  fetch_services_data net p = (Ok data, p') ->
  call_tool net name arguments p
  = (match dispatch name arguments data with
     | Ok t => text_content t
     | Err e => text_content ("Error: " +++ exn_str e)
     end, p').
Proof.
  intros F. unfold call_tool, call_tool_try. rewrite F.
  destruct (dispatch name arguments data); reflexivity.
Qed.

Lemma call_tool_load_failed net name arguments p e p' :
  fetch_services_data net p = (Err e, p') ->
  call_tool net name arguments p = (text_content ("Error: " +++ exn_str e), p').
Proof.
  intros F. unfold call_tool, call_tool_try. rewrite F. reflexivity.
Qed.

(** C5, as amended.  The dataset is loaded first.  When the load succeeds, a
    missing or empty [query] or [service_id] gives the parameter message,
    whatever the dataset holds; when the load fails, the response is
    "Error: " followed by the description of that failure.  Either way the
    invocation answers with one text item. *)
Theorem parameters_checked_after_load (net : network) (p : process) (arguments : pyval) :
  mapping arguments ->
  (truthy (field arguments "query" (PStr "")) = false ->
   fst (call_tool net "search_services" arguments p)
   = match fst (fetch_services_data net p) with
     | Ok _ => text_content "Error: query parameter is required"
     | Err e => text_content ("Error: " +++ exn_str e)
     end)
  /\ (truthy (field arguments "service_id" (PStr "")) = false ->
      fst (call_tool net "get_service_details" arguments p)
      = match fst (fetch_services_data net p) with
        | Ok _ => text_content "Error: service_id parameter is required"
        | Err e => text_content ("Error: " +++ exn_str e)
        end).
Proof.
  intros M. destruct arguments as [| | | | |a]; try contradiction.
  split; intros T; destruct (fetch_services_data net p) as [[data|e] p'] eqn:F.
  - rewrite (call_tool_loaded _ _ _ _ _ _ F). cbn [fst dispatch String.eqb Ascii.eqb Bool.eqb].
    unfold tool_search. rewrite py_get_dict. cbn [bind]. rewrite T. reflexivity.
  - rewrite (call_tool_load_failed _ _ _ _ _ _ F). reflexivity.
  - rewrite (call_tool_loaded _ _ _ _ _ _ F). cbn [fst].
    unfold dispatch. cbn [String.eqb Ascii.eqb Bool.eqb].
    unfold tool_details. rewrite py_get_dict. cbn [bind]. rewrite T. reflexivity.
  - rewrite (call_tool_load_failed _ _ _ _ _ _ F). reflexivity.
Qed.

Lemma parameters_checked_after_load_witness :
  fst (call_tool (serves sample) "search_services" (PDict [("query", PStr "")]) start)
  = text_content "Error: query parameter is required"
  /\ fst (call_tool unreachable "get_service_details" (PDict []) start)
     = text_content "Error: All connection attempts failed".
Proof.
  split.
  - apply (proj1 (parameters_checked_after_load (serves sample) start
                    (PDict [("query", PStr "")]) I)).
    reflexivity.
  - apply (proj2 (parameters_checked_after_load unreachable start (PDict []) I)).
    reflexivity.
Defined.

(** C5 as stated fails: with an empty cache and a network that cannot be
    reached, a call without [query] reports the connection failure, not the
    missing parameter. *)
Lemma load_failure_hides_parameter_check : ~ parameters_checked_first.
Proof.
  intros C. destruct (C unreachable start (PDict []) I) as [H _].
  specialize (H eq_refl). vm_compute in H. discriminate.
Qed.

(** C7.  An invocation always answers with one text item.  Its text is
    "Error: " followed by the description of the exception when the load of
    the dataset or the dispatch raises, the text of the operation
    otherwise; for a name that is none of the four operations, reached with
    the dataset loaded, it is the unknown-tool message. *)
Theorem call_tool_never_raises (net : network) (name : string) (arguments : pyval)
        (p : process) :
  exists t,
    fst (call_tool net name arguments p) = [mkTextContent "text" t]
    /\ match fst (fetch_services_data net p) with
       | Err e => t = "Error: " +++ exn_str e
       | Ok data =>
           match dispatch name arguments data with
           | Err e => t = "Error: " +++ exn_str e
           | Ok out => t = out
           end
           /\ (known_tool name = false -> t = "Unknown tool: " +++ name)
       end.
Proof.
  destruct (fetch_services_data net p) as [[data|e] p'] eqn:F.
  - rewrite (call_tool_loaded _ _ _ _ _ _ F). cbn [fst].
    assert (U : known_tool name = false -> dispatch name arguments data
                                           = Ok ("Unknown tool: " +++ name)).
    { unfold known_tool, dispatch. intros K.
      repeat (apply orb_false_iff in K as [K ?]).
      now repeat match goal with E : (_ =? _)%string = false |- _ => rewrite E; clear E end. }
    destruct (dispatch name arguments data) as [out|e] eqn:D.
    + exists out. repeat split. intros K. specialize (U K). congruence.
    + exists ("Error: " +++ exn_str e). repeat split. intros K. specialize (U K).
      discriminate.
  - rewrite (call_tool_load_failed _ _ _ _ _ _ F). cbn [fst].
    exists ("Error: " +++ exn_str e). split; reflexivity.
Qed.

Lemma call_tool_never_raises_witness :
  exists t,
    fst (call_tool (serves sample) "frobnicate" PNone start) = [mkTextContent "text" t]
    /\ t = "Unknown tool: frobnicate".
Proof.
  destruct (call_tool_never_raises (serves sample) "frobnicate" PNone start)
    as (t & E & _ & U).
  exists t. split; [exact E | apply U; reflexivity].
Defined.

(* ================================================================== *)
(** * Formatter: the sections only append *)

Lemma bind_assoc {A B C : Type} (c : result A) (f : A -> result B) (g : B -> result C) :
  (y <- (x <- c ;; f x) ;; g y) = (x <- c ;; y <- f x ;; g y).
Proof. destruct c; reflexivity. Qed.

Lemma bind_ext {A B : Type} (c : result A) (f g : A -> result B) :
  (forall a, f a = g a) -> bind c f = bind c g.
Proof. intros H. destruct c; simpl; auto. Qed.

Lemma append_each_appends body items : appends (append_each body items).
Proof.
  induction items as [|x rest IH]; intros lines; cbn [append_each].
  - cbn [bind]. now rewrite app_nil_r.
  - rewrite bind_assoc. apply bind_ext. intros new. cbn [app].
    rewrite (IH (lines ++ new)), (IH new). rewrite bind_assoc.
    apply bind_ext. intros n2. cbn [bind]. now rewrite app_assoc.
Qed.

(** A loop entered with the heading already appended. *)
Lemma append_each_after_heading body items heading lines :
  append_each body items (lines ++ [heading])
  = (new <- append_each body items [heading] ;; Ok (lines ++ new)).
Proof.
  rewrite (append_each_appends body items (lines ++ [heading])).
  rewrite (append_each_appends body items [heading]). rewrite bind_assoc.
  apply bind_ext. intros new. cbn [bind]. now rewrite <- app_assoc.
Qed.

Lemma appends_compose f g :
  appends f -> appends g -> appends (fun lines => l <- f lines ;; g l).
Proof.
  intros F G lines. rewrite (F lines). rewrite !bind_assoc.
  apply bind_ext. intros new. cbn [bind app].
  rewrite (G (lines ++ new)), (G new). rewrite bind_assoc.
  apply bind_ext. intros n2. cbn [bind]. now rewrite app_assoc.
Qed.

(** Case analysis along a section: split on the values read and on the
    tests, leaving the loops. *)
Ltac section_cases :=
  repeat match goal with
         | |- context [py_get ?v ?k ?d] =>
             destruct (py_get v k d) eqn:?; cbn [bind]; try reflexivity
         | |- context [py_first ?v] =>
             destruct (py_first v) eqn:?; cbn [bind]; try reflexivity
         | |- context [py_slice_to ?v ?n] =>
             destruct (py_slice_to v n) eqn:?; cbn [bind]; try reflexivity
         | |- context [py_iter ?v] =>
             destruct (py_iter v) eqn:?; cbn [bind]; try reflexivity
         | |- context [if truthy ?v then _ else _] =>
             destruct (truthy v) eqn:?; cbn [bind]; try reflexivity
         | |- context [if negb ?b then _ else _] =>
             destruct b eqn:?; cbn [bind negb]; try reflexivity
         end.

Lemma add_requirements_appends service : appends (add_requirements service).
Proof.
  intros lines. unfold add_requirements. section_cases;
    try (now rewrite app_nil_r).
  apply append_each_after_heading.
Qed.

Lemma add_prerequisites_appends service : appends (add_prerequisites service).
Proof.
  intros lines. unfold add_prerequisites. section_cases;
    try (now rewrite app_nil_r).
  apply append_each_after_heading.
Qed.

Lemma add_forms_appends service : appends (add_forms service).
Proof.
  intros lines. unfold add_forms. section_cases;
    try (now rewrite app_nil_r).
  apply append_each_after_heading.
Qed.

Lemma add_legal_appends service : appends (add_legal service).
Proof.
  intros lines. unfold add_legal. section_cases;
    try (now rewrite app_nil_r).
  apply append_each_after_heading.
Qed.

Lemma add_online_appends service : appends (add_online service).
Proof.
  intros lines. unfold add_online. section_cases; now rewrite app_nil_r.
Qed.

Lemma add_appointment_appends service : appends (add_appointment service).
Proof.
  intros lines. unfold add_appointment. section_cases; now rewrite app_nil_r.
Qed.

Lemma add_authorities_appends service : appends (add_authorities service).
Proof.
  intros lines. unfold add_authorities. section_cases; try (now rewrite app_nil_r).
  rewrite append_each_after_heading. cbn [app]. rewrite !bind_assoc.
  apply bind_ext. intros new. cbn [bind].
  destruct (py_len a) as [n|e]; cbn [bind]; [|reflexivity].
  destruct (5 <? n)%nat; cbn [bind]; [|reflexivity].
  now rewrite app_assoc.
Qed.

Lemma later_sections_appends service : appends (later_sections service).
Proof.
  unfold later_sections.
  apply (appends_compose (add_forms service)); [apply add_forms_appends|].
  apply (appends_compose (add_online service)); [apply add_online_appends|].
  apply (appends_compose (add_appointment service)); [apply add_appointment_appends|].
  apply (appends_compose (add_authorities service)); [apply add_authorities_appends|].
  apply add_legal_appends.
Qed.

(** The formatter's lines, section by section. *)
Lemma format_lines_sections service :
  format_lines service
  = (before <- lines_before_prerequisites service ;;
     section <- add_prerequisites service [] ;;
     after <- later_sections service [] ;;
     Ok (before ++ section ++ after)).
Proof.
  unfold format_lines, lines_before_prerequisites. rewrite !bind_assoc.
  apply bind_ext. intros head. apply bind_ext. intros before.
  rewrite (add_prerequisites_appends service before). rewrite !bind_assoc.
  apply bind_ext. intros section. cbn [bind].
  change (later_sections service (before ++ section)
          = (after <- later_sections service [] ;; Ok (before ++ section ++ after))).
  rewrite (later_sections_appends service (before ++ section)).
  apply bind_ext. intros after. now rewrite app_assoc.
Qed.

(* ================================================================== *)
(** * Formatter: the Prerequisites section *)

Lemma prerequisite_bullets items acc out :
  append_each prerequisite_line items acc = Ok out ->
  out = acc ++ map (fun prereq => PStr ("- " +++ py_str (field prereq "name" (PStr "N/A"))))
                   items.
Proof.
  revert acc. induction items as [|item rest IH]; intros acc H; cbn [append_each] in H.
  - injection H as <-. now rewrite app_nil_r.
  - bind_inv H. unfold prerequisite_line in Hx. bind_inv Hx.
    apply py_get_Ok in Hx0 as (d & -> & ->). injection Hx as <-.
    apply IH in H as ->. now rewrite <- app_assoc.
Qed.

(** What lines 84-88 append, whenever they do not raise. *)
Lemma add_prerequisites_section service section :
  add_prerequisites service [] = Ok section ->
  section = prerequisites_section service.
Proof.
  unfold add_prerequisites. intros H.
  bind_inv H. apply py_get_Ok in Hx as (d & -> & ->).
  unfold prerequisites_section, prerequisites_of.
  destruct (field (PDict d) "prerequisites" (PList [])) as [| | | s | l | kv] eqn:E;
    cbn [truthy] in H.
  - now injection H as <-.
  - destruct b; [discriminate | now injection H as <-].
  - destruct (negb (z =? 0)); [discriminate | now injection H as <-].
  - destruct s as [|c s]; cbn in H; [now injection H as <- | discriminate].
  - destruct l as [|first rest]; [now injection H as <-|].
    cbn [py_first bind] in H. bind_inv H. apply py_get_Ok in Hx as (e & -> & ->).
    destruct (is_str (field (PDict e) "name" PNone) "keine"); cbn [negb] in H.
    + now injection H as <-.
    + cbn [py_iter bind] in H. now apply prerequisite_bullets in H.
  - destruct kv; cbn in H; [now injection H as <- | discriminate].
Qed.

(** C3, as amended.  Whenever the formatter returns a text, that text is the
    lines in front of the section, the Prerequisites section and the later
    sections joined by newlines, where the section is decided by the first
    entry alone: it is absent when the sequence is empty or its first entry
    is named "keine", and otherwise holds the heading and one bullet per
    entry.  So exactly [[keine]] gives no section and [[Ausweis]] gives the
    heading with the one bullet "- Ausweis". *)
Theorem prerequisites_decided_by_first_entry (service : pyval) (text : string) :
  format_service_details service = Ok text ->
  (exists before after,
      lines_before_prerequisites service = Ok before
      /\ later_sections service [] = Ok after
      /\ py_join nl (before ++ prerequisites_section service ++ after) = Ok text)
  /\ (prerequisites_section service <> []
      <-> exists first rest,
            prerequisites_of service = first :: rest
            /\ field first "name" PNone <> PStr "keine")
  /\ (prerequisites_section service <> [] ->
      prerequisites_section service
      = PStr (nl +++ "## Prerequisites")
        :: map (fun prereq => PStr ("- " +++ py_str (field prereq "name" (PStr "N/A"))))
               (prerequisites_of service))
  /\ (prerequisites_of service = [keine] -> prerequisites_section service = [])
  /\ (prerequisites_of service = [ausweis] ->
      prerequisites_section service = [PStr (nl +++ "## Prerequisites"); PStr "- Ausweis"]).
Proof.
  intros H. split; [|split; [|split; [|split]]].
  - unfold format_service_details in H. bind_inv H.
    rewrite format_lines_sections in Hx.
    bind_inv Hx. rename x0 into before. bind_inv Hx. rename x0 into section.
    bind_inv Hx. rename x0 into after. injection Hx as <-.
    apply add_prerequisites_section in Hx1 as ->.
    exists before, after. auto.
  - unfold prerequisites_section.
    destruct (prerequisites_of service) as [|first rest].
    + split; [congruence | intros (f & r & E & _); discriminate].
    + destruct (field first "name" PNone) as [| | | s | |] eqn:N; cbn [is_str];
        try (split; [intros _; exists first, rest; split; [reflexivity | rewrite N; discriminate]
                    | discriminate]).
      destruct (String.eqb_spec s "keine") as [->|Ne].
      * split; [congruence|]. intros (f & r & E & K). injection E as <- <-.
        rewrite N in K. congruence.
      * split; [|discriminate]. intros _. exists first, rest. split; [reflexivity|].
        rewrite N. congruence.
  - unfold prerequisites_section.
    destruct (prerequisites_of service) as [|first rest]; [congruence|].
    destruct (is_str (field first "name" PNone) "keine"); [congruence | reflexivity].
  - unfold prerequisites_section. intros ->. reflexivity.
  - unfold prerequisites_section. intros ->. reflexivity.
Qed.

Lemma prerequisites_decided_by_first_entry_witness :
  prerequisites_section with_ausweis = [PStr (nl +++ "## Prerequisites"); PStr "- Ausweis"]
  /\ prerequisites_section keine_then_ausweis = [].
Proof.
  split.
  - destruct (prerequisites_decided_by_first_entry with_ausweis
                (("# Anmeldung" +++ nl +++ nl +++ "**ID:** N/A" +++ nl +++ "**URL:** N/A"
                  +++ nl +++ nl +++ "## Description" +++ nl +++ "N/A"
                  +++ nl +++ nl +++ "## Fees" +++ nl +++ "N/A"
                  +++ nl +++ nl +++ "## Process Time" +++ nl +++ "N/A"
                  +++ nl +++ nl +++ "## Prerequisites" +++ nl +++ "- Ausweis"))
                eq_refl) as (_ & _ & _ & _ & H).
    apply H. reflexivity.
  - reflexivity.
Defined.

(** C3 as stated fails: the sequence [[keine; Ausweis]] is neither empty nor
    the sole sentinel, yet the output has no Prerequisites section. *)
Lemma sentinel_first_hides_section : ~ section_unless_sole_sentinel.
Proof.
  intros C.
  destruct (C keine_then_ausweis
              ("# Anmeldung" +++ nl +++ nl +++ "**ID:** N/A" +++ nl +++ "**URL:** N/A"
               +++ nl +++ nl +++ "## Description" +++ nl +++ "N/A"
               +++ nl +++ nl +++ "## Fees" +++ nl +++ "N/A"
               +++ nl +++ nl +++ "## Process Time" +++ nl +++ "N/A") eq_refl) as [_ H].
  assert (P : prerequisites_of keine_then_ausweis <> []
              /\ prerequisites_of keine_then_ausweis <> [keine])
    by (split; discriminate).
  apply H in P. vm_compute in P. discriminate.
Qed.

(* ================================================================== *)
(** * Formatter: placeholders and totality *)

(** Every section on its own: the formatter's lines are the opening lines
    followed by what each section adds to the empty list. *)
Lemma format_lines_parts service :
  format_lines service
  = (head <- head_lines service ;;
     requirements <- add_requirements service [] ;;
     prerequisites <- add_prerequisites service [] ;;
     forms <- add_forms service [] ;;
     online <- add_online service [] ;;
     appointment <- add_appointment service [] ;;
     authorities <- add_authorities service [] ;;
     legal <- add_legal service [] ;;
     Ok (head ++ requirements ++ prerequisites ++ forms ++ online ++ appointment
              ++ authorities ++ legal)).
Proof.
  unfold format_lines.
  apply bind_ext. intros head.
  rewrite (add_requirements_appends service head), bind_assoc.
  apply bind_ext. intros l1. cbn [bind].
  rewrite (add_prerequisites_appends service (head ++ l1)), bind_assoc.
  apply bind_ext. intros l2. cbn [bind].
  rewrite (add_forms_appends service ((head ++ l1) ++ l2)), bind_assoc.
  apply bind_ext. intros l3. cbn [bind].
  rewrite (add_online_appends service (((head ++ l1) ++ l2) ++ l3)), bind_assoc.
  apply bind_ext. intros l4. cbn [bind].
  rewrite (add_appointment_appends service ((((head ++ l1) ++ l2) ++ l3) ++ l4)), bind_assoc.
  apply bind_ext. intros l5. cbn [bind].
  rewrite (add_authorities_appends service (((((head ++ l1) ++ l2) ++ l3) ++ l4) ++ l5)),
    bind_assoc.
  apply bind_ext. intros l6. cbn [bind].
  rewrite (add_legal_appends service ((((((head ++ l1) ++ l2) ++ l3) ++ l4) ++ l5) ++ l6)).
  apply bind_ext. intros l7. now rewrite <- !app_assoc.
Qed.

Lemma dict_get_put k v d k' :
  dict_get (put k v d) k' = if (k =? k')%string then Some v else dict_get d k'.
Proof.
  induction d as [|[k0 v0] r IH]; cbn [put dict_get].
  - reflexivity.
  - destruct (String.eqb_spec k0 k) as [->|N]; cbn [dict_get].
    + destruct (String.eqb_spec k k'); reflexivity.
    + rewrite IH. destruct (String.eqb_spec k0 k') as [->|N'].
      * destruct (String.eqb_spec k k'); [congruence | reflexivity].
      * reflexivity.
Qed.

Lemma field_put k v d k' dflt :
  field (PDict (put k v d)) k' dflt
  = if (k =? k')%string then v else field (PDict d) k' dflt.
Proof.
  unfold field. rewrite dict_get_put. destruct (k =? k')%string; reflexivity.
Qed.

Lemma field_missing d k dflt : dict_get d k = None -> field (PDict d) k dflt = dflt.
Proof. unfold field. now intros ->. Qed.

(** Unfold the formatter down to the fields it reads, on both sides. *)
Ltac read_fields :=
  unfold format_service_details; rewrite !format_lines_parts;
  unfold head_lines, add_requirements, add_prerequisites, add_forms, add_online,
    add_appointment, add_authorities, add_legal;
  rewrite ?py_get_dict; cbn [bind];
  rewrite ?field_put; cbn [String.eqb Ascii.eqb Bool.eqb].

(** A missing top-level field renders as the same field holding "N/A". *)
Lemma top_level_placeholder d k :
  In k ["name"; "id"; "description"; "fees"; "process_time"] ->
  dict_get d k = None ->
  format_service_details (PDict (put k (PStr "N/A") d)) = format_service_details (PDict d).
Proof.
  intros K M.
  repeat (destruct K as [<-|K]; [read_fields; rewrite (field_missing d _ _ M); reflexivity|]).
  destruct K.
Qed.

(** A missing URL, with or without a ["meta"] mapping, renders as "N/A". *)
Lemma url_placeholder d m :
  field (PDict d) "meta" (PDict []) = PDict m ->
  dict_get m "url" = None ->
  format_service_details (PDict (put "meta" (PDict (put "url" (PStr "N/A") m)) d))
  = format_service_details (PDict d).
Proof.
  intros M U. read_fields. rewrite M, !py_get_dict, field_put. cbn [String.eqb Ascii.eqb Bool.eqb].
  rewrite (field_missing m _ _ U). reflexivity.
Qed.

(** Two lists whose entries render alike run a loop alike. *)
Lemma append_each_alike body items items' lines :
  Forall2 (fun x y => body x = body y) items items' ->
  append_each body items lines = append_each body items' lines.
Proof.
  intros F. revert lines. induction F as [|x y l l' E F IH]; intros lines; cbn [append_each].
  - reflexivity.
  - rewrite E. apply bind_ext. intros new. apply IH.
Qed.

Lemma alike_refl {A B : Type} (f : A -> B) (l : list A) : Forall2 (fun x y => f x = f y) l l.
Proof. induction l; constructor; auto. Qed.

Lemma alike_middle {A B : Type} (f : A -> B) before x y after :
  f x = f y ->
  Forall2 (fun x y => f x = f y) (before ++ x :: after) (before ++ y :: after).
Proof.
  intros E. induction before as [|b before IH]; cbn [app]; constructor; auto.
  apply alike_refl.
Qed.

Lemma alike_firstn {A B : Type} (f : A -> B) n l l' :
  Forall2 (fun x y => f x = f y) l l' ->
  Forall2 (fun x y => f x = f y) (firstn n l) (firstn n l').
Proof.
  intros F. revert n. induction F; intros [|n]; cbn [firstn]; constructor; auto.
Qed.

Lemma length_middle {A : Type} (before : list A) x y after :
  List.length (before ++ x :: after) = List.length (before ++ y :: after).
Proof. rewrite !length_app. reflexivity. Qed.

Lemma truthy_middle before (x : pyval) after : truthy (PList (before ++ x :: after)) = true.
Proof. destruct before; reflexivity. Qed.

Lemma field_present d k v dflt : dict_get d k = Some v -> field (PDict d) k dflt = v.
Proof. unfold field. now intros ->. Qed.

(** Each loop body renders an entry without name as one named "N/A". *)
Lemma requirement_name_alike e :
  dict_get e "name" = None ->
  requirement_lines (PDict (put "name" (PStr "N/A") e)) = requirement_lines (PDict e).
Proof.
  intros M. unfold requirement_lines. rewrite !py_get_dict, !field_put.
  cbn [String.eqb Ascii.eqb Bool.eqb]. now rewrite (field_missing e _ _ M).
Qed.

(** A requirement without description renders as one whose description is
    the empty text. *)
Lemma requirement_description_alike e :
  dict_get e "description" = None ->
  requirement_lines (PDict (put "description" (PStr "") e)) = requirement_lines (PDict e).
Proof.
  intros M. unfold requirement_lines. rewrite !py_get_dict, !field_put.
  cbn [String.eqb Ascii.eqb Bool.eqb]. now rewrite (field_missing e _ _ M).
Qed.

Lemma prerequisite_name_alike e :
  dict_get e "name" = None ->
  prerequisite_line (PDict (put "name" (PStr "N/A") e)) = prerequisite_line (PDict e).
Proof.
  intros M. unfold prerequisite_line. rewrite !py_get_dict, !field_put.
  cbn [String.eqb Ascii.eqb Bool.eqb]. now rewrite (field_missing e _ _ M).
Qed.

Lemma authority_name_alike e :
  dict_get e "name" = None ->
  authority_line (PDict (put "name" (PStr "N/A") e)) = authority_line (PDict e).
Proof.
  intros M. unfold authority_line. rewrite !py_get_dict, !field_put.
  cbn [String.eqb Ascii.eqb Bool.eqb]. now rewrite (field_missing e _ _ M).
Qed.

Lemma link_name_alike e :
  dict_get e "name" = None ->
  link_line (PDict (put "name" (PStr "N/A") e)) = link_line (PDict e).
Proof.
  intros M. unfold link_line. rewrite !py_get_dict, !field_put.
  cbn [String.eqb Ascii.eqb Bool.eqb]. now rewrite (field_missing e _ _ M).
Qed.

(** A loop over a list with one entry replaced by one that renders alike. *)
Lemma append_each_middle body before x y after lines :
  body x = body y ->
  append_each body (before ++ x :: after) lines
  = append_each body (before ++ y :: after) lines.
Proof.
  intros E. apply append_each_alike. now apply alike_middle.
Qed.

Lemma requirements_entry_alike d before x y after :
  requirement_lines x = requirement_lines y ->
  dict_get d "requirements" = Some (PList (before ++ y :: after)) ->
  format_service_details (PDict (put "requirements" (PList (before ++ x :: after)) d))
  = format_service_details (PDict d).
Proof.
  intros E H. read_fields. rewrite (field_present d _ _ _ H), !truthy_middle.
  cbn [py_iter bind]. rewrite (append_each_middle requirement_lines before x y after _ E).
  reflexivity.
Qed.

Lemma forms_entry_alike d before x y after :
  link_line x = link_line y ->
  dict_get d "forms" = Some (PList (before ++ y :: after)) ->
  format_service_details (PDict (put "forms" (PList (before ++ x :: after)) d))
  = format_service_details (PDict d).
Proof.
  intros E H. read_fields. rewrite (field_present d _ _ _ H), !truthy_middle.
  cbn [py_iter bind]. rewrite (append_each_middle link_line before x y after _ E).
  reflexivity.
Qed.

Lemma legal_entry_alike d before x y after :
  link_line x = link_line y ->
  dict_get d "legal" = Some (PList (before ++ y :: after)) ->
  format_service_details (PDict (put "legal" (PList (before ++ x :: after)) d))
  = format_service_details (PDict d).
Proof.
  intros E H. read_fields. rewrite (field_present d _ _ _ H), !truthy_middle.
  cbn [py_iter bind]. rewrite (append_each_middle link_line before x y after _ E).
  reflexivity.
Qed.

Lemma authorities_entry_alike d before x y after :
  authority_line x = authority_line y ->
  dict_get d "authorities" = Some (PList (before ++ y :: after)) ->
  format_service_details (PDict (put "authorities" (PList (before ++ x :: after)) d))
  = format_service_details (PDict d).
Proof.
  intros E H. read_fields. rewrite (field_present d _ _ _ H), !truthy_middle.
  cbn [py_slice_to py_iter py_len bind].
  rewrite (length_middle before x y after).
  rewrite (append_each_alike authority_line
             (firstn (slice_stop (List.length (before ++ y :: after)) 5) (before ++ x :: after))
             (firstn (slice_stop (List.length (before ++ y :: after)) 5) (before ++ y :: after)))
    by (apply alike_firstn; now apply alike_middle).
  reflexivity.
Qed.

Lemma prerequisites_entry_alike d before e after :
  dict_get e "name" = None ->
  dict_get d "prerequisites" = Some (PList (before ++ PDict e :: after)) ->
  format_service_details
    (PDict (put "prerequisites"
              (PList (before ++ PDict (put "name" (PStr "N/A") e) :: after)) d))
  = format_service_details (PDict d).
Proof.
  intros M H. read_fields. rewrite (field_present d _ _ _ H), !truthy_middle.
  cbn [py_iter bind].
  rewrite (append_each_middle prerequisite_line before _ _ after _
             (prerequisite_name_alike e M)).
  destruct before as [|b before]; [|reflexivity].
  cbn [app py_first bind]. rewrite !py_get_dict, field_put, (field_missing e _ _ M).
  reflexivity.
Qed.

(** A nested entry without name renders as the same entry named "N/A". *)
Lemma entry_name_placeholder d k before e after :
  In k ["requirements"; "prerequisites"; "forms"; "authorities"; "legal"] ->
  dict_get d k = Some (PList (before ++ PDict e :: after)) ->
  dict_get e "name" = None ->
  format_service_details
    (PDict (put k (PList (before ++ PDict (put "name" (PStr "N/A") e) :: after)) d))
  = format_service_details (PDict d).
Proof.
  intros K H M. destruct K as [<-|[<-|[<-|[<-|[<-|[]]]]]].
  - apply (requirements_entry_alike d before _ (PDict e) after);
      [now apply requirement_name_alike | exact H].
  - now apply prerequisites_entry_alike.
  - apply (forms_entry_alike d before _ (PDict e) after);
      [now apply link_name_alike | exact H].
  - apply (authorities_entry_alike d before _ (PDict e) after);
      [now apply authority_name_alike | exact H].
  - apply (legal_entry_alike d before _ (PDict e) after);
      [now apply link_name_alike | exact H].
Qed.

(** ** Totality on Service records *)

Lemma str_items_text lines i :
  Forall text_value lines -> exists strs, str_items i lines = Ok strs.
Proof.
  intros F. revert i. induction F as [|v l T F IH]; intros i.
  - exists []. reflexivity.
  - destruct v; try contradiction. destruct (IH (S i)) as [strs E].
    exists (s :: strs). cbn [str_items]. now rewrite E.
Qed.

Lemma loop_total body (P : list (string * pyval) -> Prop) items acc :
  (forall e, P e -> exists new, body (PDict e) = Ok new /\ Forall text_value new) ->
  Forall (fun e => match e with PDict d => P d | _ => False end) items ->
  Forall text_value acc ->
  exists out, append_each body items acc = Ok out /\ Forall text_value out.
Proof.
  intros B F. revert acc. induction F as [|x l Px F IH]; intros acc A; cbn [append_each].
  - exists acc. auto.
  - destruct x; try contradiction. destruct (B _ Px) as (new & -> & T). cbn [bind].
    apply IH. apply Forall_app. auto.
Qed.

Lemma optional_field d k P dflt :
  optional d k P -> P dflt -> P (field (PDict d) k dflt).
Proof.
  unfold optional, field. destruct (dict_get d k); auto.
Qed.

Lemma entries_nil P : entries P (PList []).
Proof. constructor. Qed.

Lemma mapping_nil : mapping (PDict []).
Proof. exact I. Qed.

Lemma entries_firstn P l n : entries P (PList l) -> entries P (PList (firstn n l)).
Proof.
  cbn [entries]. intros F. rewrite <- (firstn_skipn n l) in F.
  now apply Forall_app in F.
Qed.

Lemma requirement_lines_total e :
  optional e "description" text_value ->
  exists new, requirement_lines (PDict e) = Ok new /\ Forall text_value new.
Proof.
  intros D. unfold requirement_lines. rewrite !py_get_dict. cbn [bind].
  eexists. split; [reflexivity|].
  repeat constructor. apply (optional_field e "description" text_value); [exact D | exact I].
Qed.

Lemma prerequisite_line_total e :
  exists new, prerequisite_line (PDict e) = Ok new /\ Forall text_value new.
Proof.
  unfold prerequisite_line. rewrite !py_get_dict. cbn [bind].
  eexists. split; [reflexivity | repeat constructor].
Qed.

Lemma authority_line_total e :
  exists new, authority_line (PDict e) = Ok new /\ Forall text_value new.
Proof.
  unfold authority_line. rewrite !py_get_dict. cbn [bind].
  eexists. split; [reflexivity | repeat constructor].
Qed.

Lemma link_line_total e :
  exists new, link_line (PDict e) = Ok new /\ Forall text_value new.
Proof.
  unfold link_line. rewrite !py_get_dict. cbn [bind].
  destruct (truthy (field (PDict e) "link" (PStr "")));
    eexists; (split; [reflexivity | repeat constructor]).
Qed.

(** A section that loops over a sequence of mappings under a heading. *)
Lemma list_section_total body (P : list (string * pyval) -> Prop) v heading :
  (forall e, P e -> exists new, body (PDict e) = Ok new /\ Forall text_value new) ->
  entries P v ->
  exists out,
    (if truthy v
     then items <- py_iter v ;; append_each body items ([] ++ [PStr heading])
     else Ok []) = Ok out
    /\ Forall text_value out.
Proof.
  intros B E. destruct v as [| | | | l |]; try contradiction.
  destruct l as [|x l]; cbn [truthy].
  - exists []. auto.
  - cbn [py_iter bind app]. apply (loop_total body P); auto. repeat constructor.
Qed.

Lemma add_requirements_total d :
  optional d "requirements" (entries (fun e => optional e "description" text_value)) ->
  exists out, add_requirements (PDict d) [] = Ok out /\ Forall text_value out.
Proof.
  intros O. unfold add_requirements. rewrite py_get_dict. cbn [bind].
  apply (list_section_total requirement_lines (fun e => optional e "description" text_value)).
  - intros e. apply requirement_lines_total.
  - apply (optional_field d "requirements"); [exact O | apply entries_nil].
Qed.

Lemma add_forms_total d :
  optional d "forms" (entries (fun _ => True)) ->
  exists out, add_forms (PDict d) [] = Ok out /\ Forall text_value out.
Proof.
  intros O. unfold add_forms. rewrite py_get_dict. cbn [bind].
  apply (list_section_total link_line (fun _ => True)).
  - intros e _. apply link_line_total.
  - apply (optional_field d "forms"); [exact O | apply entries_nil].
Qed.

Lemma add_legal_total d :
  optional d "legal" (entries (fun _ => True)) ->
  exists out, add_legal (PDict d) [] = Ok out /\ Forall text_value out.
Proof.
  intros O. unfold add_legal. rewrite py_get_dict. cbn [bind].
  apply (list_section_total link_line (fun _ => True)).
  - intros e _. apply link_line_total.
  - apply (optional_field d "legal"); [exact O | apply entries_nil].
Qed.

Lemma add_prerequisites_total d :
  optional d "prerequisites" (entries (fun _ => True)) ->
  exists out, add_prerequisites (PDict d) [] = Ok out /\ Forall text_value out.
Proof.
  intros O. unfold add_prerequisites. rewrite py_get_dict. cbn [bind].
  assert (E : entries (fun _ => True) (field (PDict d) "prerequisites" (PList [])))
    by (apply (optional_field d "prerequisites"); [exact O | apply entries_nil]).
  destruct (field (PDict d) "prerequisites" (PList [])) as [| | | | l |]; try contradiction.
  destruct l as [|first rest]; cbn [truthy].
  - exists []. auto.
  - cbn [py_first bind]. cbn [entries] in E. inversion E as [|? ? Hf Hr]; subst.
    destruct first; try contradiction. rewrite py_get_dict. cbn [bind].
    destruct (negb (is_str (field (PDict d0) "name" PNone) "keine")).
    + cbn [py_iter bind app]. apply (loop_total prerequisite_line (fun _ => True)).
      * intros e _. apply prerequisite_line_total.
      * exact E.
      * repeat constructor.
    + exists []. auto.
Qed.

Lemma add_authorities_total d :
  optional d "authorities" (entries (fun _ => True)) ->
  exists out, add_authorities (PDict d) [] = Ok out /\ Forall text_value out.
Proof.
  intros O. unfold add_authorities. rewrite py_get_dict. cbn [bind].
  assert (E : entries (fun _ => True) (field (PDict d) "authorities" (PList [])))
    by (apply (optional_field d "authorities"); [exact O | apply entries_nil]).
  destruct (field (PDict d) "authorities" (PList [])) as [| | | | l |]; try contradiction.
  destruct l as [|first rest]; cbn [truthy].
  - exists []. auto.
  - cbn [py_slice_to py_iter py_len bind app].
    destruct (loop_total authority_line (fun _ => True)
                (firstn (slice_stop (List.length (first :: rest)) 5) (first :: rest))
                [PStr (nl +++ "## Responsible Authorities")]) as (out & -> & T).
    + intros e _. apply authority_line_total.
    + apply (entries_firstn (fun _ => True)). exact E.
    + repeat constructor.
    + cbn [bind]. destruct (5 <? List.length (first :: rest))%nat.
      * eexists. split; [reflexivity|]. apply Forall_app. split; [exact T | repeat constructor].
      * exists out. auto.
Qed.

Lemma link_section_total d k heading label :
  optional d k mapping ->
  exists out,
    (online <- py_get (PDict d) k (PDict []) ;;
     l <- py_get online "link" PNone ;;
     if truthy l
     then l' <- py_get online "link" PNone ;;
          Ok ([] ++ [PStr heading; PStr (label +++ py_str l' +++ ")")])
     else Ok []) = Ok out
    /\ Forall text_value out.
Proof.
  intros O. rewrite py_get_dict. cbn [bind].
  assert (M : mapping (field (PDict d) k (PDict [])))
    by (apply (optional_field d k); [exact O | apply mapping_nil]).
  destruct (field (PDict d) k (PDict [])) as [| | | | |m]; try contradiction.
  rewrite !py_get_dict. cbn [bind].
  destruct (truthy (field (PDict m) "link" PNone)).
  - eexists. split; [reflexivity | repeat constructor].
  - exists []. auto.
Qed.

Lemma head_lines_total d :
  optional d "meta" mapping ->
  optional d "description" text_value ->
  optional d "fees" text_value ->
  optional d "process_time" text_value ->
  exists out, head_lines (PDict d) = Ok out /\ Forall text_value out.
Proof.
  intros M D F T. unfold head_lines. rewrite !py_get_dict. cbn [bind].
  assert (Mm : mapping (field (PDict d) "meta" (PDict [])))
    by (apply (optional_field d "meta"); [exact M | apply mapping_nil]).
  destruct (field (PDict d) "meta" (PDict [])) as [| | | | |m]; try contradiction.
  rewrite py_get_dict. cbn [bind].
  eexists. split; [reflexivity|].
  repeat constructor.
  - apply (optional_field d "description" text_value); [exact D | exact I].
  - apply (optional_field d "fees" text_value); [exact F | exact I].
  - apply (optional_field d "process_time" text_value); [exact T | exact I].
Qed.

(** On a Service record the formatter returns a text. *)
Lemma format_total service :
  service_record service -> exists text, format_service_details service = Ok text.
Proof.
  destruct service as [| | | | |d]; try contradiction.
  intros (M & D & F & T & Rq & Pr & Fo & On & Ap & Au & Le).
  unfold format_service_details. rewrite format_lines_parts.
  destruct (head_lines_total d M D F T) as (l0 & -> & T0). cbn [bind].
  destruct (add_requirements_total d Rq) as (l1 & -> & T1). cbn [bind].
  destruct (add_prerequisites_total d Pr) as (l2 & -> & T2). cbn [bind].
  destruct (add_forms_total d Fo) as (l3 & -> & T3). cbn [bind].
  destruct (link_section_total d "onlineprocessing" (nl +++ "## Online Processing")
              "[Process online](" On) as (l4 & E4 & T4).
  unfold add_online. rewrite E4. cbn [bind].
  destruct (link_section_total d "appointment" (nl +++ "## Appointment")
              "[Book appointment](" Ap) as (l5 & E5 & T5).
  unfold add_appointment. rewrite E5. cbn [bind].
  destruct (add_authorities_total d Au) as (l6 & -> & T6). cbn [bind].
  destruct (add_legal_total d Le) as (l7 & -> & T7). cbn [bind].
  destruct (str_items_text (l0 ++ l1 ++ l2 ++ l3 ++ l4 ++ l5 ++ l6 ++ l7) 0) as [strs E].
  { repeat (apply Forall_app; split; auto). }
  unfold py_join. rewrite E. cbn [bind]. eexists. reflexivity.
Qed.

(** C8 as stated fails for the description of a requirement: the formatter
    leaves the line empty where the record with "N/A" shows "N/A". *)
Lemma requirement_description_left_empty : ~ requirement_description_placeholder.
Proof.
  intros C.
  specialize (C [("name", PStr "Anmeldung"); ("requirements", PList [PDict []])]
                [] [] [] eq_refl eq_refl).
  vm_compute in C. discriminate.
Qed.

(* ================================================================== *)
(** * Further properties of the specification *)

Lemma list_prefix_witness :
  list_all_services (dataset_of [numbered 1; numbered 2; numbered 3]) 2
  = Ok [list_projection (numbered 1); list_projection (numbered 2)]
  /\ list_all_services (dataset_of [numbered 1; numbered 2; numbered 3]) 0 = Ok []
  /\ list_all_services (dataset_of [numbered 1; numbered 2; numbered 3]) 10000
     = Ok (map list_projection [numbered 1; numbered 2; numbered 3]).
Proof.
  split; [|split].
  - apply (list_prefix (dataset_of [numbered 1; numbered 2; numbered 3]) 2);
      [exact I | repeat constructor | lia].
  - apply (list_prefix (dataset_of [numbered 1; numbered 2; numbered 3]) 0);
      [exact I | repeat constructor | lia].
  - apply (list_prefix (dataset_of [numbered 1; numbered 2; numbered 3]) 10000);
      [exact I | repeat constructor | lia].
Defined.

(** Search keeps the dataset order: the results are the projections of the
    matching records, in the order of the dataset. *)
Theorem search_keeps_dataset_order (data : pyval) (q : string) (results : list search_result) :
  search_services data (PStr q) = Ok results ->
  results = map search_projection (filter (matches q) (records data)).
Proof. apply search_services_Ok. Qed.

Lemma search_keeps_dataset_order_witness :
  [search_projection anmeldung; search_projection late_match]
  = map search_projection
        (filter (matches "a") (records (dataset_of [anmeldung; numbered 3; late_match]))).
Proof.
  apply (search_keeps_dataset_order (dataset_of [anmeldung; numbered 3; late_match]) "a").
  vm_compute. reflexivity.
Defined.

Lemma authority_bullets items acc :
  Forall mapping items ->
  append_each authority_line items acc
  = Ok (acc ++ map (fun auth => PStr ("- " +++ py_str (field auth "name" (PStr "N/A"))))
                   items).
Proof.
  intros F. revert acc. induction F as [|x l Mx F IH]; intros acc; cbn [append_each map].
  - now rewrite app_nil_r.
  - destruct x; try contradiction. unfold authority_line at 1. rewrite py_get_dict.
    cbn [bind]. rewrite IH. now rewrite <- app_assoc.
Qed.

(** The Responsible Authorities section of a record with authorities: the
    heading, a bullet for each of the first five, and, when there are more
    than five, one line that counts the rest. *)
Theorem authorities_truncated (d : list (string * pyval)) (l : list pyval) :
  dict_get d "authorities" = Some (PList l) ->
  Forall mapping l ->
  l <> [] ->
  add_authorities (PDict d) []
  = Ok (PStr (nl +++ "## Responsible Authorities")
        :: map (fun auth => PStr ("- " +++ py_str (field auth "name" (PStr "N/A"))))
               (firstn 5 l)
        ++ (if (5 <? List.length l)%nat
            then [PStr ("- ... and " +++ str_of_nat (List.length l - 5) +++ " more")]
            else [])).
Proof.
  intros H M N. unfold add_authorities. rewrite py_get_dict, (field_present d _ _ _ H).
  cbn [bind]. destruct l as [|x l]; [congruence|]. cbn [truthy py_slice_to py_iter bind].
  rewrite slice_stop_nonneg by lia. change (Z.to_nat 5) with 5%nat.
  rewrite authority_bullets.
  - cbn [bind py_len app]. destruct (5 <? List.length (x :: l))%nat.
    + reflexivity.
    + now rewrite app_nil_r.
  - rewrite <- (firstn_skipn 5 (x :: l)) in M. now apply Forall_app in M.
Qed.

Lemma authorities_truncated_witness :
  add_authorities seven_authorities []
  = Ok [PStr (nl +++ "## Responsible Authorities");
        PStr "- A1"; PStr "- A2"; PStr "- A3"; PStr "- N/A"; PStr "- A5";
        PStr "- ... and 2 more"].
Proof.
  apply (authorities_truncated
           [("name", PStr "Anmeldung"); ("authorities", PList seven)] seven).
  - reflexivity.
  - repeat constructor.
  - discriminate.
Defined.

(** The end-to-end scenario: on the sample dataset the search for "anmeld"
    answers with the header for one match and the line of the record, the
    details of "7" start with the title, and "999" is reported as not
    found; the dataset is requested once. *)
Theorem end_to_end_scenario :
  exists found details,
    serve (serves sample) scenario start
    = ([text_content found; text_content details;
        text_content "Service with ID '999' not found"],
       Process sample 1)
    /\ String.prefix "Found 1 service(s) matching 'anmeld'" found = true
    /\ py_in ("**Anmeldung**" +++ nl) found = true
    /\ String.prefix "# Anmeldung" details = true.
Proof.
  eexists. eexists. split; [vm_compute; reflexivity|].
  repeat split; vm_compute; reflexivity.
Qed.

(* ================================================================== *)
(** * Search: when it returns and when it raises *)

Lemma search_step_match q service :
  searchable service -> listable service -> matches q service = true ->
  search_step (lower q) service = Ok (Some (search_projection service)).
Proof.
  destruct service as [| | | | |d]; try contradiction.
  intros [Hn Hd] L M. unfold search_step. rewrite !py_get_dict.
  assert (En : exists name, field (PDict d) "name" (PStr "") = PStr name
                            /\ text_field (PDict d) "name" = name).
  { unfold text_field, field, text_or_missing in *.
    destruct (dict_get d "name") as [[]|]; try contradiction; eexists; split; reflexivity. }
  assert (Ed : exists desc, field (PDict d) "description" (PStr "") = PStr desc
                            /\ text_field (PDict d) "description" = desc
                            /\ (dict_get d "description" = Some (PStr desc)
                                \/ dict_get d "description" = None /\ desc = "")).
  { unfold text_field, field, text_or_missing in *.
    destruct (dict_get d "description") as [[]|]; try contradiction;
      eexists; repeat split; auto. }
  destruct En as (name & En & Tn). destruct Ed as (desc & Ed & Td & Dd).
  unfold matches, icontains in M. rewrite Tn, Td in M.
  rewrite En, Ed. cbn [py_lower bind]. rewrite M. cbn [bind].
  rewrite (description_entry_text d desc Dd). cbn [bind].
  unfold search_projection. rewrite Td.
  simpl in L. unfold field.
  destruct (dict_get d "meta") as [[]|]; try contradiction; reflexivity.
Qed.

Lemma search_loop_total q services acc :
  Forall searchable services ->
  Forall (fun service => matches q service = true -> listable service) services ->
  search_loop (lower q) services acc
  = Ok (acc ++ map search_projection (filter (matches q) services)).
Proof.
  revert acc. induction services as [|service rest IH]; intros acc S L; cbn [search_loop].
  - cbn [filter map]. now rewrite app_nil_r.
  - inversion S; inversion L; subst. cbn [filter].
    destruct (matches q service) eqn:M.
    + rewrite search_step_match by auto. cbn [bind map]. rewrite IH by assumption.
      now rewrite <- app_assoc.
    + rewrite search_step_no_match by assumption. cbn [bind]. now apply IH.
Qed.

Lemma search_services_typed (data : pyval) (q : string) :
  dataset data ->
  Forall searchable (records data) ->
  Forall (fun service => matches q service = true -> listable service) (records data) ->
  search_services data (PStr q)
  = Ok (map search_projection (filter (matches q) (records data))).
Proof.
  intros D S L. destruct data as [| | | | |d]; try contradiction.
  unfold search_services. cbn [py_lower bind]. rewrite py_get_dict. cbn [bind].
  rewrite (py_iter_records (PDict d) d eq_refl D). cbn [bind].
  now rewrite search_loop_total.
Qed.

(** On a dataset whose records are mappings with text names and
    descriptions, and whose matching records have a mapping (or nothing) as
    ["meta"], the search does not raise: it returns the projections of the
    matching records in dataset order. *)
Theorem search_total (data : pyval) (q : string) :
  dataset data ->
  Forall searchable (records data) ->
  Forall (fun service => matches q service = true -> listable service) (records data) ->
  search_services data (PStr q)
  = Ok (map search_projection (filter (matches q) (records data))).
Proof. apply search_services_typed. Qed.

Lemma search_total_witness :
  search_services (dataset_of [anmeldung; numbered 3; late_match]) (PStr "AMT")
  = Ok (map search_projection
          (filter (matches "AMT") (records (dataset_of [anmeldung; numbered 3; late_match])))).
Proof.
  apply (search_total (dataset_of [anmeldung; numbered 3; late_match]) "AMT").
  - exact I.
  - repeat constructor.
  - repeat constructor.
Defined.

Lemma search_step_needs q service r :
  search_step (lower q) service = Ok r ->
  matches q service = true -> listable service.
Proof.
  unfold search_step. intros H M.
  bind_inv H. apply py_get_Ok in Hx as (d & -> & ->).
  bind_inv H. apply py_lower_Ok in Hx as (name & Hname & ->).
  bind_inv H. rewrite py_get_dict in Hx. injection Hx as <-.
  bind_inv H. apply py_lower_Ok in Hx as (desc & Hdesc & ->).
  unfold matches, icontains, text_field in M. cbn [field] in M, Hname, Hdesc.
  rewrite Hname, Hdesc in M. rewrite M in H.
  bind_inv H. bind_inv H. bind_inv H. bind_inv H.
  apply py_get_Ok in Hx2 as (_ & _ & ->).
  bind_inv H. apply py_get_Ok in Hx2 as (m & Hm & _).
  simpl in Hm |- *. destruct (dict_get d "meta") as [[]|]; try discriminate; exact I.
Qed.

Lemma search_loop_needs q services acc results :
  search_loop (lower q) services acc = Ok results ->
  Forall (fun service => matches q service = true -> listable service) services.
Proof.
  revert acc. induction services as [|service rest IH]; intros acc H; [constructor|].
  cbn [search_loop] in H. bind_inv H. constructor.
  - now apply (search_step_needs q service x).
  - now apply IH in H.
Qed.

(** The search returns exactly on such datasets: one record that is not a
    mapping, or whose name or description is present and not text (JSON
    null, a number), or one matching record whose ["meta"] is not a mapping,
    makes the whole search raise, whatever the other records hold. *)
Theorem search_returns_iff (data : pyval) (q : string) :
  dataset data ->
  ((exists results, search_services data (PStr q) = Ok results)
   <-> Forall searchable (records data)
       /\ Forall (fun service => matches q service = true -> listable service)
                 (records data)).
Proof.
  intros D. split.
  - intros [results H]. destruct data as [| | | | |d]; try contradiction.
    unfold search_services in H. cbn [py_lower bind] in H. rewrite py_get_dict in H.
    cbn [bind] in H. rewrite (py_iter_records (PDict d) d eq_refl D) in H. cbn [bind] in H.
    split; [now apply search_loop_Ok in H | now apply search_loop_needs in H].
  - intros [S L]. eexists. now apply search_services_typed.
Qed.

Lemma search_returns_iff_witness :
  ~ exists results,
      search_services (dataset_of [anmeldung; nameless]) (PStr "zzz") = Ok results.
Proof.
  intros H.
  apply (proj1 (search_returns_iff (dataset_of [anmeldung; nameless]) "zzz" I)) in H.
  destruct H as [S _]. inversion S as [|? ? _ S']. inversion S' as [|? ? N _].
  cbv in N. tauto.
Defined.

Lemma py_in_empty (s : string) : py_in "" s = true.
Proof. destruct s; reflexivity. Qed.

(** The function itself accepts the empty query: it matches every record,
    so the search returns the whole dataset, projected. *)
Theorem search_empty_query_returns_all (data : pyval) :
  dataset data ->
  Forall searchable (records data) ->
  Forall listable (records data) ->
  search_services data (PStr "") = Ok (map search_projection (records data)).
Proof.
  intros D S L. rewrite (search_services_typed data "" D S).
  - f_equal. f_equal. clear. induction (records data) as [|service rest IH]; [reflexivity|].
    cbn [filter]. unfold matches at 1, icontains. cbn [lower]. rewrite py_in_empty.
    cbn [orb]. now rewrite IH.
  - apply Forall_forall. intros service Hin _. rewrite Forall_forall in L. now apply L.
Qed.

Lemma search_empty_query_returns_all_witness :
  search_services (dataset_of [anmeldung; numbered 3]) (PStr "")
  = Ok (map search_projection (records (dataset_of [anmeldung; numbered 3]))).
Proof.
  apply (search_empty_query_returns_all (dataset_of [anmeldung; numbered 3]));
    [exact I | repeat constructor | repeat constructor].
Defined.

Lemma lower_char_idempotent (c : ascii) : lower_char (lower_char c) = lower_char c.
Proof.
  destruct c as [[] [] [] [] [] [] [] []]; reflexivity.
Qed.

Lemma lower_idempotent (s : string) : lower (lower s) = lower s.
Proof.
  induction s as [|c s IH]; cbn [lower]; [reflexivity|].
  now rewrite lower_char_idempotent, IH.
Qed.

(** The search ignores the case of the query: two queries with the same
    lower-case form give the same outcome, results or exception, and so
    does the query put in lower case. *)
Theorem search_ignores_query_case (data : pyval) (q q' : string) :
  (lower q = lower q' ->
   search_services data (PStr q) = search_services data (PStr q'))
  /\ search_services data (PStr (lower q)) = search_services data (PStr q).
Proof.
  unfold search_services. cbn [py_lower bind]. split.
  - now intros ->.
  - now rewrite lower_idempotent.
Qed.

Lemma search_ignores_query_case_witness :
  search_services sample (PStr "ANMELD") = search_services sample (PStr "anMeld").
Proof.
  apply (proj1 (search_ignores_query_case sample "ANMELD" "anMeld")). reflexivity.
Defined.

(* ================================================================== *)
(** * Lookup: laziness and exceptions *)

Lemma get_service_loop_first before service after service_id :
  Forall mapping before ->
  Forall (fun record => same_id service_id record = false) before ->
  mapping service ->
  same_id service_id service = true ->
  get_service_loop (before ++ service :: after) service_id = Ok (Some service).
Proof.
  intros M N Ms S. induction before as [|b before IH]; cbn [app get_service_loop].
  - destruct service; try contradiction. rewrite py_get_dict. cbn [bind].
    unfold same_id in S. now rewrite S.
  - inversion M; inversion N; subst. destruct b; try contradiction.
    rewrite py_get_dict. cbn [bind].
    match goal with H : same_id _ (PDict _) = false |- _ => unfold same_id in H; rewrite H end.
    now apply IH.
Qed.

(** The lookup returns at the first match: the records behind it are not
    looked at, so they may hold anything, also values that are no mappings. *)
Theorem lookup_stops_at_first_match (data service_id service : pyval)
        (before after : list pyval) :
  dataset data ->
  records data = before ++ service :: after ->
  Forall mapping before ->
  Forall (fun record => same_id service_id record = false) before ->
  mapping service ->
  same_id service_id service = true ->
  get_service_by_id data service_id = Ok (Some service).
Proof.
  intros D R M N Ms S. destruct data as [| | | | |d]; try contradiction.
  unfold get_service_by_id. rewrite py_get_dict. cbn [bind].
  rewrite (py_iter_records (PDict d) d eq_refl D). cbn [bind]. rewrite R.
  now apply get_service_loop_first.
Qed.

Lemma lookup_stops_at_first_match_witness :
  get_service_by_id (dataset_of [numbered 1; numbered 7; PNone; PStr "broken"]) (PInt 7)
  = Ok (Some (numbered 7)).
Proof.
  apply (lookup_stops_at_first_match
           (dataset_of [numbered 1; numbered 7; PNone; PStr "broken"]) (PInt 7) (numbered 7)
           [numbered 1] [PNone; PStr "broken"]).
  - exact I.
  - reflexivity.
  - repeat constructor.
  - repeat constructor.
  - exact I.
  - reflexivity.
Defined.

(** A record that is no mapping, met before any match, makes the lookup
    raise an AttributeError: it is not skipped and not reported as absent. *)
Theorem lookup_raises_on_non_mapping (data service_id bad : pyval)
        (before after : list pyval) :
  dataset data ->
  records data = before ++ bad :: after ->
  Forall mapping before ->
  Forall (fun record => same_id service_id record = false) before ->
  ~ mapping bad ->
  get_service_by_id data service_id
  = Err (Raise "AttributeError"
           ("'" +++ type_name bad +++ "' object has no attribute 'get'")).
Proof.
  intros D R M N B. destruct data as [| | | | |d]; try contradiction.
  unfold get_service_by_id. rewrite py_get_dict. cbn [bind].
  rewrite (py_iter_records (PDict d) d eq_refl D). cbn [bind]. rewrite R. clear R D.
  induction before as [|b before IH]; cbn [app get_service_loop].
  - destruct bad; try reflexivity. exfalso. apply B. exact I.
  - inversion M; inversion N; subst. destruct b; try contradiction.
    rewrite py_get_dict. cbn [bind].
    match goal with H : same_id _ (PDict _) = false |- _ => unfold same_id in H; rewrite H end.
    now apply IH.
Qed.

Lemma lookup_raises_on_non_mapping_witness :
  get_service_by_id (dataset_of [numbered 1; PNone; numbered 7]) (PStr "7")
  = Err (Raise "AttributeError" "'NoneType' object has no attribute 'get'").
Proof.
  apply (lookup_raises_on_non_mapping
           (dataset_of [numbered 1; PNone; numbered 7]) (PStr "7") PNone
           [numbered 1] [numbered 7]).
  - exact I.
  - reflexivity.
  - repeat constructor.
  - repeat constructor.
  - intros H. exact H.
Defined.

(** A record without identifier, or with the identifier null, is compared
    as the text "None": the lookup of "None" finds such a record. *)
Theorem lookup_of_None_finds_unnumbered (data record : pyval) :
  dataset data ->
  Forall mapping (records data) ->
  In record (records data) ->
  field record "id" PNone = PNone ->
  exists found,
    get_service_by_id data (PStr "None") = Ok (Some found)
    /\ same_id (PStr "None") found = true.
Proof.
  intros D M Hin Hid. destruct data as [| | | | |d]; try contradiction.
  unfold get_service_by_id. rewrite py_get_dict. cbn [bind].
  rewrite (py_iter_records (PDict d) d eq_refl D). cbn [bind].
  rewrite get_service_loop_find by assumption.
  destruct (find (same_id (PStr "None")) (records (PDict d))) as [found|] eqn:F.
  - exists found. split; [reflexivity|]. now apply find_some in F.
  - apply (find_none _ _ F) in Hin. unfold same_id in Hin. rewrite Hid in Hin. discriminate.
Qed.

Lemma lookup_of_None_finds_unnumbered_witness :
  exists found,
    get_service_by_id (dataset_of [numbered 1; unnumbered]) (PStr "None") = Ok (Some found)
    /\ same_id (PStr "None") found = true.
Proof.
  apply (lookup_of_None_finds_unnumbered (dataset_of [numbered 1; unnumbered]) unnumbered).
  - exact I.
  - repeat constructor.
  - right. left. reflexivity.
  - reflexivity.
Defined.

(* ================================================================== *)
(** * Tool dispatcher: the response of each operation *)

Lemma truthy_text (q : string) : q <> "" -> truthy (PStr q) = true.
Proof.
  intros H. cbn [truthy]. destruct (String.eqb_spec q ""); [contradiction | reflexivity].
Qed.

(** The search operation on a well-typed dataset, for a non-empty text
    query: the no-match message when no record matches, otherwise the
    header with the number of matching records followed by one paragraph
    per match, in dataset order. *)
Theorem search_response (arguments data : pyval) (q : string) :
  mapping arguments ->
  field arguments "query" (PStr "") = PStr q ->
  q <> "" ->
  dataset data ->
  Forall searchable (records data) ->
  Forall (fun service => matches q service = true -> listable service) (records data) ->
  dispatch "search_services" arguments data
  = Ok (match filter (matches q) (records data) with
        | [] => "No services found matching '" +++ q +++ "'"
        | found =>
            fold_left search_paragraph (map search_projection found)
                      (search_header (List.length found) q)
        end).
Proof.
  intros A Q N D S L. destruct arguments as [| | | | |a]; try contradiction.
  cbn [dispatch String.eqb Ascii.eqb Bool.eqb]. unfold tool_search.
  rewrite py_get_dict, Q. cbn [bind]. rewrite (truthy_text q N). cbn [negb].
  rewrite (search_services_typed data q D S L). cbn [bind py_str].
  unfold search_header. rewrite length_map.
  destruct (filter (matches q) (records data)) as [|m ms]; reflexivity.
Qed.

Lemma search_response_witness :
  dispatch "search_services" (PDict [("query", PStr "passport")]) sample
  = Ok "No services found matching 'passport'".
Proof.
  apply (search_response (PDict [("query", PStr "passport")]) sample "passport").
  - exact I.
  - reflexivity.
  - discriminate.
  - exact I.
  - repeat constructor.
  - repeat constructor; discriminate.
Defined.

(** A query that is present, not empty and not text (a number, a list)
    passes the parameter check and fails in [query.lower()]: the response
    is the text of that AttributeError, whatever the dataset holds. *)
Theorem non_text_query_is_reported (net : network) (p : process) (arguments query data : pyval)
        (p' : process) :
  mapping arguments ->
  field arguments "query" (PStr "") = query ->
  truthy query = true ->
  ~ text_value query ->
  fetch_services_data net p = (Ok data, p') ->
  fst (call_tool net "search_services" arguments p)
  = text_content ("Error: '" +++ type_name query +++ "' object has no attribute 'lower'").
Proof.
  intros A Q T N F. destruct arguments as [| | | | |a]; try contradiction.
  rewrite (call_tool_loaded _ _ _ _ _ _ F). cbn [fst dispatch String.eqb Ascii.eqb Bool.eqb].
  unfold tool_search. rewrite py_get_dict, Q. cbn [bind]. rewrite T. cbn [negb].
  unfold search_services.
  destruct query; try reflexivity. exfalso. apply N. exact I.
Qed.

Lemma non_text_query_is_reported_witness :
  fst (call_tool (serves sample) "search_services" (PDict [("query", PInt 5)]) start)
  = text_content "Error: 'int' object has no attribute 'lower'".
Proof.
  apply (non_text_query_is_reported (serves sample) start (PDict [("query", PInt 5)])
           (PInt 5) sample (Process sample 1)).
  - exact I.
  - reflexivity.
  - reflexivity.
  - intros H. exact H.
  - reflexivity.
Defined.

(** The details operation composes lookup and formatter: with a non-empty
    identifier on a dataset of mappings, it answers with the formatter's
    outcome for the first record with that identifier, and with the
    not-found message when there is none; a record that is the empty
    mapping counts as not found. *)
Theorem details_response (arguments data service_id : pyval) :
  mapping arguments ->
  field arguments "service_id" (PStr "") = service_id ->
  truthy service_id = true ->
  dataset data ->
  Forall mapping (records data) ->
  dispatch "get_service_details" arguments data
  = match find (same_id service_id) (records data) with
    | None => Ok (not_found_message service_id)
    | Some (PDict []) => Ok (not_found_message service_id)
    | Some service => format_service_details service
    end.
Proof.
  intros A I T D M. destruct arguments as [| | | | |a]; try contradiction.
  cbn [dispatch String.eqb Ascii.eqb Bool.eqb]. unfold tool_details.
  rewrite py_get_dict, I. cbn [bind]. rewrite T. cbn [negb].
  destruct data as [| | | | |d]; try contradiction.
  unfold get_service_by_id. rewrite py_get_dict. cbn [bind].
  rewrite (py_iter_records (PDict d) d eq_refl D). cbn [bind].
  rewrite get_service_loop_find by assumption. cbn [bind].
  destruct (find (same_id service_id) (records (PDict d))) as [service|] eqn:F;
    [|reflexivity].
  apply find_some in F as [Hin _]. rewrite Forall_forall in M. apply M in Hin.
  destruct service as [| | | | |[|kv r]]; try contradiction; reflexivity.
Qed.

Lemma details_response_witness :
  dispatch "get_service_details" (PDict [("service_id", PStr "None")])
           (dataset_of [numbered 1; PDict []])
  = Ok "Service with ID 'None' not found".
Proof.
  apply (details_response (PDict [("service_id", PStr "None")])
           (dataset_of [numbered 1; PDict []]) (PStr "None")).
  - exact I.
  - reflexivity.
  - reflexivity.
  - exact I.
  - repeat constructor.
Defined.

(** The list operation with an integer limit that is not negative, 50 when
    none is given: the header counts the entries shown and states the
    dataset's own [datacount] (0 when absent), and the entries are the first
    [min(limit, 200)] records, so never more than 200. *)
Theorem list_response (arguments data : pyval) (z : Z) :
  mapping arguments ->
  field arguments "limit" (PInt 50) = PInt z ->
  0 <= z ->
  dataset data ->
  Forall listable (records data) ->
  let shown := map list_projection (firstn (Z.to_nat (Z.min z 200)) (records data)) in
  dispatch "list_services" arguments data
  = Ok (fold_left list_bullet shown
          (list_header (List.length shown) (field data "datacount" (PInt 0))))
  /\ (List.length shown <= 200)%nat.
Proof.
  intros A Lm Z0 D L shown. split.
  - destruct arguments as [| | | | |a]; try contradiction.
    cbn [dispatch String.eqb Ascii.eqb Bool.eqb]. unfold tool_list.
    rewrite py_get_dict, Lm. cbn [bind].
    pose proof (limit_clamped z) as C. cbn [bind] in C.
    destruct (py_min_200 (PInt z)) as [m|e]; [|discriminate]. cbn [bind] in C |- *.
    rewrite C. cbn [bind]. rewrite list_all_services_Ok by assumption.
    rewrite slice_stop_nonneg by lia. cbn [bind].
    destruct data as [| | | | |d]; try contradiction. rewrite py_get_dict. reflexivity.
  - unfold shown. rewrite length_map, length_firstn. lia.
Qed.

Lemma list_response_witness :
  dispatch "list_services" (PDict []) sample
  = Ok (fold_left list_bullet [list_projection anmeldung] (list_header 1 (PInt 3))).
Proof.
  apply (list_response (PDict []) sample 50).
  - exact I.
  - reflexivity.
  - lia.
  - exact I.
  - repeat constructor.
Defined.

(** A limit that is neither an integer nor a boolean (text, null, a list)
    fails in [min(limit, 200)]: the operation raises a TypeError and lists
    nothing, and the dispatcher reports it as text. *)
Theorem non_numeric_limit_is_reported (arguments data limit : pyval) :
  mapping arguments ->
  field arguments "limit" (PInt 50) = limit ->
  (forall z, limit <> PInt z) ->
  (forall b, limit <> PBool b) ->
  dispatch "list_services" arguments data
  = Err (Raise "TypeError"
           ("'<' not supported between instances of 'int' and '"
            +++ type_name limit +++ "'")).
Proof.
  intros A Lm NZ NB. destruct arguments as [| | | | |a]; try contradiction.
  cbn [dispatch String.eqb Ascii.eqb Bool.eqb]. unfold tool_list.
  rewrite py_get_dict, Lm. cbn [bind].
  destruct limit; try reflexivity; [now destruct (NB b) | now destruct (NZ z)].
Qed.

Lemma non_numeric_limit_is_reported_witness :
  dispatch "list_services" (PDict [("limit", PStr "10")]) sample
  = Err (Raise "TypeError" "'<' not supported between instances of 'int' and 'str'").
Proof.
  apply (non_numeric_limit_is_reported (PDict [("limit", PStr "10")]) sample (PStr "10")).
  - exact I.
  - reflexivity.
  - discriminate.
  - discriminate.
Defined.

(** The statistics read the top-level fields of the dataset only: they never
    raise on a mapping, whatever the types of its fields, and neither the
    records under ["data"] nor the arguments of the invocation change
    them. *)
Theorem stats_read_metadata_only (d : list (string * pyval)) (v a1 a2 : pyval) :
  (exists t, tool_stats (PDict d) = Ok t)
  /\ tool_stats (PDict (put "data" v d)) = tool_stats (PDict d)
  /\ dispatch "get_services_stats" a1 (PDict d) = dispatch "get_services_stats" a2 (PDict d).
Proof.
  split; [|split].
  - unfold tool_stats. rewrite !py_get_dict. cbn [bind]. eexists. reflexivity.
  - unfold tool_stats. rewrite !py_get_dict. cbn [bind]. rewrite !field_put.
    reflexivity.
  - reflexivity.
Qed.

(* ================================================================== *)
(** * Requests over a run of the server *)

Lemma call_tool_requests net name arguments p :
  requests (snd (call_tool net name arguments p))
  = if is_none (_services_cache p) then S (requests p) else requests p.
Proof.
  unfold call_tool, call_tool_try, fetch_services_data.
  destruct (is_none (_services_cache p)); cbn [negb].
  - destruct (fetched (net (requests p))) as [v|e].
    + destruct (dispatch name arguments v); reflexivity.
    + reflexivity.
  - destruct (dispatch name arguments (_services_cache p)); reflexivity.
Qed.

(** An invocation sends one GET request when the cache is empty and none
    when it is populated; a run of [n] invocations sends at most [n]. *)
Theorem requests_accounting (net : network) (calls : list (string * pyval)) (p : process) :
  (forall name arguments,
      requests (snd (call_tool net name arguments p))
      = if is_none (_services_cache p) then S (requests p) else requests p)
  /\ (requests p <= requests (snd (serve net calls p)))%nat
  /\ (requests (snd (serve net calls p)) <= requests p + List.length calls)%nat.
Proof.
  split; [intros; apply call_tool_requests|].
  revert p. induction calls as [|[name arguments] rest IH]; intros p; cbn [serve].
  - cbn [snd List.length]. lia.
  - pose proof (call_tool_requests net name arguments p) as R.
    destruct (call_tool net name arguments p) as [r p1]. cbn [snd] in R.
    specialize (IH p1). destruct (serve net rest p1) as [rs p2]. cbn [snd List.length] in *.
    destruct (is_none (_services_cache p)); lia.
Qed.

Lemma serve_cons net name arguments rest p :
  serve net ((name, arguments) :: rest) p
  = (fst (call_tool net name arguments p)
       :: fst (serve net rest (snd (call_tool net name arguments p))),
     snd (serve net rest (snd (call_tool net name arguments p)))).
Proof.
  cbn [serve]. destruct (call_tool net name arguments p) as [r p1]. cbn [fst snd].
  destruct (serve net rest p1); reflexivity.
Qed.

(** Failures are retried by the next invocation and only until the first
    success: when the next [k] requests fail and the one after them brings a
    dataset, the first [k] invocations of a longer run answer with the
    "Error: " text of their failure, and the run ends with that dataset
    cached after exactly [k + 1] requests. *)
Theorem fetch_retried_until_success (net : network) (errs : nat -> exn) (k : nat)
        (d : pyval) (calls : list (string * pyval)) (p : process) :
  _services_cache p = PNone ->
  (forall i, (i < k)%nat -> fetched (net (requests p + i)%nat) = Err (errs i)) ->
  fetched (net (requests p + k)%nat) = Ok d ->
  d <> PNone ->
  (k < List.length calls)%nat ->
  snd (serve net calls p) = Process d (S (requests p + k))
  /\ firstn k (fst (serve net calls p))
     = map (fun i => text_content ("Error: " +++ exn_str (errs i))) (seq 0 k).
Proof.
  revert errs calls p. induction k as [|k IH]; intros errs calls p C E S N L;
    destruct calls as [|[name arguments] rest]; cbn [List.length] in L; try lia;
    rewrite serve_cons; cbn [fst snd].
  - rewrite Nat.add_0_r in S.
    assert (F : fetch_services_data net p = (Ok d, Process d (Datatypes.S (requests p))))
      by (rewrite (fetch_uncached net p C), S; reflexivity).
    rewrite (call_tool_loaded _ _ _ _ _ _ F). cbn [snd].
    rewrite serve_keeps_process by exact N. rewrite Nat.add_0_r. split; reflexivity.
  - assert (F : fetch_services_data net p
                = (Err (errs 0%nat), Process PNone (Datatypes.S (requests p)))).
    { rewrite (fetch_uncached net p C). rewrite <- (Nat.add_0_r (requests p)) at 1.
      rewrite (E 0%nat) by lia. reflexivity. }
    rewrite (call_tool_load_failed _ _ _ _ _ _ F). cbn [fst snd].
    destruct (IH (fun i => errs (Datatypes.S i)) rest
                 (Process PNone (Datatypes.S (requests p)))) as [P R].
    + reflexivity.
    + intros i Hi. cbn [requests]. rewrite Nat.add_succ_comm. apply E. lia.
    + cbn [requests]. now rewrite Nat.add_succ_comm.
    + exact N.
    + lia.
    + split.
      * rewrite P. cbn [requests]. now rewrite Nat.add_succ_comm.
      * cbn [firstn seq map]. rewrite R. f_equal.
        rewrite <- seq_shift, map_map. reflexivity.
Qed.

Lemma fetch_retried_until_success_witness :
  snd (serve (flaky (Ok not_found))
             [("get_services_stats", PDict []); ("get_services_stats", PDict []);
              ("list_services", PDict [])] start)
  = Process sample 2
  /\ firstn 1 (fst (serve (flaky (Ok not_found))
                          [("get_services_stats", PDict []); ("get_services_stats", PDict []);
                           ("list_services", PDict [])] start))
     = map (fun i => text_content ("Error: " +++ exn_str (status_error not_found)))
           (seq 0 1).
Proof.
  apply (fetch_retried_until_success (flaky (Ok not_found))
           (fun _ => status_error not_found) 1 sample).
  - reflexivity.
  - intros i Hi. assert (i = 0%nat) as -> by lia. reflexivity.
  - reflexivity.
  - discriminate.
  - cbn. lia.
Defined.

(* ================================================================== *)
(** * Formatter: the opening lines and the typing they need *)

(** Split a successful [x <- c ;; k], naming the value and its equation. *)
Tactic Notation "bind_as" hyp(H) ident(a) ident(Ha) :=
  apply bind_Ok in H; destruct H as (a & Ha & H).

Lemma str_items_app a b i strs :
  str_items i (a ++ b) = Ok strs ->
  exists sa sb,
    str_items i a = Ok sa /\ str_items (i + List.length a) b = Ok sb /\ strs = sa ++ sb.
Proof.
  revert i strs. induction a as [|v a IH]; intros i strs H; cbn [app] in H.
  - exists [], strs. cbn [List.length]. rewrite Nat.add_0_r. auto.
  - destruct v; cbn [str_items] in H; try discriminate.
    bind_inv H. injection H as <-. apply IH in Hx as (sa & sb & Ea & Eb & ->).
    exists (s :: sa), sb. cbn [str_items List.length]. rewrite Ea. cbn [bind].
    rewrite <- Nat.add_succ_comm. auto.
Qed.

Lemma append_assoc (a b c : string) : (a +++ b) +++ c = a +++ b +++ c.
Proof. induction a; cbn [String.append]; congruence. Qed.

Lemma join_app_prefix sep (a b : list string) :
  a <> [] -> String.prefix (join sep a) (join sep (a ++ b)) = true.
Proof.
  intros N. apply prefix_iff. induction a as [|x a IH]; [congruence|].
  destruct a as [|y a].
  - destruct b as [|z b]; cbn [app join].
    + exists "". clear. induction x; cbn [String.append]; congruence.
    + exists (sep +++ join sep (z :: b)). reflexivity.
  - destruct IH as [post E]; [discriminate|].
    exists post. cbn [app join] in E |- *. rewrite E.
    now rewrite !append_assoc.
Qed.

Lemma str_items_opening (a b c h1 h2 h3 : string) (v1 v2 v3 : pyval) i sa :
  str_items i [PStr a; PStr b; PStr c; PStr h1; v1; PStr h2; v2; PStr h3; v3] = Ok sa ->
  exists s1 s2 s3,
    v1 = PStr s1 /\ v2 = PStr s2 /\ v3 = PStr s3
    /\ sa = [a; b; c; h1; s1; h2; s2; h3; s3].
Proof.
  intros H.
  destruct v1; cbn [str_items bind] in H; try discriminate.
  destruct v2; cbn [str_items bind] in H; try discriminate.
  destruct v3; cbn [str_items bind] in H; try discriminate.
  injection H as <-. eexists _, _, _. repeat split.
Qed.

(** The shape of a document the formatter returns, and what it tells about
    the record. *)
Lemma format_opening service text :
  format_service_details service = Ok text ->
  exists description fees process_time,
    field service "description" (PStr "N/A") = PStr description
    /\ field service "fees" (PStr "N/A") = PStr fees
    /\ field service "process_time" (PStr "N/A") = PStr process_time
    /\ String.prefix (join nl (opening service description fees process_time)) text = true.
Proof.
  unfold format_service_details. intros H. bind_as H lines L.
  rewrite format_lines_parts in L. bind_as L head Hh.
  bind_as L l1 H1. bind_as L l2 H2. bind_as L l3 H3. bind_as L l4 H4.
  bind_as L l5 H5. bind_as L l6 H6. bind_as L l7 H7. injection L as <-.
  unfold py_join in H. bind_as H strs Hs. injection H as <-.
  apply str_items_app in Hs as (sa & sb & Ea & _ & ->).
  unfold head_lines in Hh.
  bind_as Hh n0 Hn. apply py_get_Ok in Hn as (d & -> & ->).
  rewrite !py_get_dict in Hh. cbn [bind] in Hh.
  bind_as Hh url Hu. apply py_get_Ok in Hu as (m & Hm & ->).
  injection Hh as <-.
  apply str_items_opening in Ea as (description & fees & process_time & Ed & Ef & Ep & ->).
  exists description, fees, process_time. repeat split; auto.
  apply (join_app_prefix nl
           (opening (PDict d) description fees process_time) sb). discriminate.
Qed.

(** Every document the formatter returns opens with the same nine lines:
    the title with the name, the identifier, the URL, and the description,
    fees and process time under their headings. *)
Theorem document_opening (service : pyval) (text : string) :
  format_service_details service = Ok text ->
  exists description fees process_time,
    field service "description" (PStr "N/A") = PStr description
    /\ field service "fees" (PStr "N/A") = PStr fees
    /\ field service "process_time" (PStr "N/A") = PStr process_time
    /\ String.prefix (join nl (opening service description fees process_time)) text = true.
Proof. apply format_opening. Qed.

Lemma document_opening_witness :
  exists description fees process_time,
    field anmeldung "description" (PStr "N/A") = PStr description
    /\ field anmeldung "fees" (PStr "N/A") = PStr fees
    /\ field anmeldung "process_time" (PStr "N/A") = PStr process_time
    /\ String.prefix (join nl (opening anmeldung description fees process_time))
         ("# Anmeldung" +++ nl +++ nl +++ "**ID:** 7" +++ nl +++ "**URL:** N/A"
          +++ nl +++ nl +++ "## Description" +++ nl +++ "Register your address"
          +++ nl +++ nl +++ "## Fees" +++ nl +++ "N/A"
          +++ nl +++ nl +++ "## Process Time" +++ nl +++ "N/A") = true.
Proof.
  apply (document_opening anmeldung). reflexivity.
Defined.

(** A description, fees or process time that is present and not text (the
    JSON value null, a number, a list) makes the formatter raise: the
    placeholder stands in for a missing field only. *)
Theorem non_text_field_raises (d : list (string * pyval)) (k : string) (v : pyval) :
  In k ["description"; "fees"; "process_time"] ->
  dict_get d k = Some v ->
  ~ text_value v ->
  exists e, format_service_details (PDict d) = Err e.
Proof.
  intros K G N.
  destruct (format_service_details (PDict d)) as [text|e] eqn:F; [|now exists e].
  exfalso. apply format_opening in F as (ds & fs & ps & Ed & Ef & Ep & _).
  destruct K as [<-|[<-|[<-|[]]]].
  - rewrite (field_present d _ v _ G) in Ed. subst v. apply N. exact I.
  - rewrite (field_present d _ v _ G) in Ef. subst v. apply N. exact I.
  - rewrite (field_present d _ v _ G) in Ep. subst v. apply N. exact I.
Qed.

Lemma non_text_field_raises_witness :
  exists e, format_service_details with_null_fees = Err e.
Proof.
  apply (non_text_field_raises [("name", PStr "Anmeldung"); ("fees", PNone)] "fees" PNone).
  - right. left. reflexivity.
  - reflexivity.
  - intros H. exact H.
Defined.

(* ================================================================== *)
(** * Formatter: the sections of nested entries *)

Lemma requirement_entries items acc :
  Forall mapping items ->
  append_each requirement_lines items acc = Ok (acc ++ flat_map requirement_entry items).
Proof.
  intros F. revert acc. induction F as [|x l Mx F IH]; intros acc; cbn [append_each flat_map].
  - now rewrite app_nil_r.
  - destruct x; try contradiction. unfold requirement_lines at 1. rewrite !py_get_dict.
    cbn [bind]. rewrite IH. now rewrite <- app_assoc.
Qed.

(** The Requirements section of a record whose requirements are mappings:
    nothing for an empty sequence, otherwise the heading and, for each
    requirement in order, a sub-heading with its name and a line with its
    description. *)
Theorem requirements_section (d : list (string * pyval)) (l : list pyval) :
  dict_get d "requirements" = Some (PList l) ->
  Forall mapping l ->
  add_requirements (PDict d) []
  = Ok (match l with
        | [] => []
        | _ => PStr (nl +++ "## Requirements") :: flat_map requirement_entry l
        end).
Proof.
  intros H M. unfold add_requirements. rewrite py_get_dict, (field_present d _ _ _ H).
  cbn [bind]. destruct l as [|x l]; [reflexivity|].
  cbn [truthy py_iter bind app]. now rewrite requirement_entries.
Qed.

Lemma requirements_section_witness :
  add_requirements
    (PDict [("requirements",
             PList [PDict [("name", PStr "Ausweis"); ("description", PStr "gueltig")];
                    PDict []])]) []
  = Ok [PStr (nl +++ "## Requirements");
        PStr (nl +++ "### Ausweis"); PStr "gueltig";
        PStr (nl +++ "### N/A"); PStr ""].
Proof.
  apply (requirements_section
           [("requirements",
             PList [PDict [("name", PStr "Ausweis"); ("description", PStr "gueltig")];
                    PDict []])]
           [PDict [("name", PStr "Ausweis"); ("description", PStr "gueltig")]; PDict []]).
  - reflexivity.
  - repeat constructor.
Defined.

Lemma link_bullets items acc :
  Forall mapping items ->
  append_each link_line items acc = Ok (acc ++ map link_bullet items).
Proof.
  intros F. revert acc. induction F as [|x l Mx F IH]; intros acc; cbn [append_each map].
  - now rewrite app_nil_r.
  - destruct x; try contradiction. unfold link_line at 1, link_bullet at 1.
    rewrite !py_get_dict. cbn [bind]. cbv zeta.
    destruct (truthy (field (PDict d) "link" (PStr ""))); cbn [bind];
      rewrite IH; now rewrite <- app_assoc.
Qed.

(** The Forms and Legal Basis sections of a record whose entries are
    mappings: nothing for an empty sequence, otherwise the heading and one
    bullet per entry, a markdown link when the entry has a non-empty link
    and the bare name otherwise. *)
Theorem forms_and_legal_sections (d : list (string * pyval)) (l : list pyval) :
  Forall mapping l ->
  (dict_get d "forms" = Some (PList l) ->
   add_forms (PDict d) []
   = Ok (match l with
         | [] => []
         | _ => PStr (nl +++ "## Forms") :: map link_bullet l
         end))
  /\ (dict_get d "legal" = Some (PList l) ->
      add_legal (PDict d) []
      = Ok (match l with
            | [] => []
            | _ => PStr (nl +++ "## Legal Basis") :: map link_bullet l
            end)).
Proof.
  intros M. split; intros H.
  - unfold add_forms. rewrite py_get_dict, (field_present d _ _ _ H).
    cbn [bind]. destruct l as [|x l]; [reflexivity|].
    cbn [truthy py_iter bind app]. now rewrite link_bullets.
  - unfold add_legal. rewrite py_get_dict, (field_present d _ _ _ H).
    cbn [bind]. destruct l as [|x l]; [reflexivity|].
    cbn [truthy py_iter bind app]. now rewrite link_bullets.
Qed.

Lemma forms_and_legal_sections_witness :
  add_forms with_forms []
  = Ok [PStr (nl +++ "## Forms");
        PStr "- [Antrag](https://example.org/a)"; PStr "- Merkblatt"; PStr "- N/A"].
Proof.
  apply (proj1 (forms_and_legal_sections
                  [("name", PStr "Anmeldung");
                   ("forms", PList [PDict [("name", PStr "Antrag");
                                           ("link", PStr "https://example.org/a")];
                                    PDict [("name", PStr "Merkblatt"); ("link", PStr "")];
                                    PDict []])]
                  [PDict [("name", PStr "Antrag"); ("link", PStr "https://example.org/a")];
                   PDict [("name", PStr "Merkblatt"); ("link", PStr "")];
                   PDict []]
                  ltac:(repeat constructor))).
  reflexivity.
Defined.

(** The Online Processing and Appointment sections: shown, with the link,
    exactly when the mapping has a link that is truthy (not missing, null or
    empty); and a value under ["onlineprocessing"] or ["appointment"] that
    is present and no mapping, such as null, raises an AttributeError. *)
Theorem link_only_sections (d : list (string * pyval)) (lines : list pyval) :
  (optional d "onlineprocessing" mapping ->
   add_online (PDict d) lines
   = Ok (lines ++ link_section "## Online Processing" "Process online"
                    (field (field (PDict d) "onlineprocessing" (PDict [])) "link" PNone)))
  /\ (optional d "appointment" mapping ->
      add_appointment (PDict d) lines
      = Ok (lines ++ link_section "## Appointment" "Book appointment"
                       (field (field (PDict d) "appointment" (PDict [])) "link" PNone)))
  /\ (forall v, dict_get d "onlineprocessing" = Some v -> ~ mapping v ->
                add_online (PDict d) lines
                = Err (Raise "AttributeError"
                         ("'" +++ type_name v +++ "' object has no attribute 'get'")))
  /\ (forall v, dict_get d "appointment" = Some v -> ~ mapping v ->
                add_appointment (PDict d) lines
                = Err (Raise "AttributeError"
                         ("'" +++ type_name v +++ "' object has no attribute 'get'"))).
Proof.
  split; [|split; [|split]].
  - intros O. unfold add_online, link_section. rewrite py_get_dict. cbn [bind].
    assert (M : mapping (field (PDict d) "onlineprocessing" (PDict [])))
      by (apply (optional_field d "onlineprocessing"); [exact O | apply mapping_nil]).
    destruct (field (PDict d) "onlineprocessing" (PDict [])) as [| | | | |m];
      try contradiction.
    rewrite !py_get_dict. cbn [bind].
    destruct (truthy (field (PDict m) "link" PNone)); [reflexivity | now rewrite app_nil_r].
  - intros O. unfold add_appointment, link_section. rewrite py_get_dict. cbn [bind].
    assert (M : mapping (field (PDict d) "appointment" (PDict [])))
      by (apply (optional_field d "appointment"); [exact O | apply mapping_nil]).
    destruct (field (PDict d) "appointment" (PDict [])) as [| | | | |m];
      try contradiction.
    rewrite !py_get_dict. cbn [bind].
    destruct (truthy (field (PDict m) "link" PNone)); [reflexivity | now rewrite app_nil_r].
  - intros v H N. unfold add_online. rewrite py_get_dict, (field_present d _ _ _ H).
    cbn [bind]. destruct v; try reflexivity. exfalso. apply N. exact I.
  - intros v H N. unfold add_appointment. rewrite py_get_dict, (field_present d _ _ _ H).
    cbn [bind]. destruct v; try reflexivity. exfalso. apply N. exact I.
Qed.

Lemma link_only_sections_witness :
  add_online (PDict [("onlineprocessing", PDict [("link", PStr "")])]) [] = Ok []
  /\ add_appointment (PDict [("appointment", PNone)]) []
     = Err (Raise "AttributeError" "'NoneType' object has no attribute 'get'").
Proof.
  split.
  - apply (proj1 (link_only_sections
                    [("onlineprocessing", PDict [("link", PStr "")])] [])).
    exact I.
  - apply (proj2 (proj2 (proj2 (link_only_sections [("appointment", PNone)] []))) PNone).
    + reflexivity.
    + intros H. exact H.
Defined.

(* ================================================================== *)
(** * Declared tools and dispatched tools *)

Lemma fold_search_paragraph results header :
  exists rest, fold_left search_paragraph results header = header +++ rest.
Proof.
  revert header. induction results as [|r results IH]; intros header; cbn [fold_left].
  - exists "". clear. induction header; cbn [String.append]; congruence.
  - destruct (IH (search_paragraph header r)) as [rest E]. rewrite E.
    unfold search_paragraph. rewrite append_assoc. eexists. reflexivity.
Qed.

Lemma fold_list_bullet items header :
  exists rest, fold_left list_bullet items header = header +++ rest.
Proof.
  revert header. induction items as [|r items IH]; intros header; cbn [fold_left].
  - exists "". clear. induction header; cbn [String.append]; congruence.
  - destruct (IH (list_bullet header r)) as [rest E]. rewrite E.
    unfold list_bullet. rewrite append_assoc. eexists. reflexivity.
Qed.

Lemma tool_search_first arguments data t :
  tool_search arguments data = Ok t -> first_char t <> Some "U"%char.
Proof.
  unfold tool_search. intros H. bind_as H query Hq.
  destruct (negb (truthy query)); [injection H as <-; discriminate|].
  bind_as H results Hr. destruct results as [|r results].
  - injection H as <-. discriminate.
  - injection H as <-.
    match goal with
    | |- context [fold_left search_paragraph ?l ?h] =>
        destruct (fold_search_paragraph l h) as [rest ->]
    end.
    discriminate.
Qed.

Lemma tool_details_first arguments data t :
  tool_details arguments data = Ok t -> first_char t <> Some "U"%char.
Proof.
  unfold tool_details. intros H. bind_as H service_id Hs.
  destruct (negb (truthy service_id)); [injection H as <-; discriminate|].
  bind_as H found Hf.
  assert (N : forall s, Ok ("Service with ID '" +++ py_str service_id +++ "' not found")
                        = Ok s -> first_char s <> Some "U"%char)
    by (intros s E; injection E as <-; discriminate).
  destruct found as [service|]; [|now apply N].
  destruct (truthy service); [|now apply N].
  apply format_opening in H as (ds & fs & ps & _ & _ & _ & P).
  apply prefix_iff in P as [post ->]. discriminate.
Qed.

Lemma tool_list_first arguments data t :
  tool_list arguments data = Ok t -> first_char t <> Some "U"%char.
Proof.
  unfold tool_list. intros H. bind_as H l Hl. bind_as H m Hm. bind_as H limit Hi.
  bind_as H services Hs. bind_as H total Ht. injection H as <-.
  match goal with
  | |- context [fold_left list_bullet ?l ?h] =>
      destruct (fold_list_bullet l h) as [rest ->]
  end.
  discriminate.
Qed.

Lemma tool_stats_first data t :
  tool_stats data = Ok t -> first_char t <> Some "U"%char.
Proof.
  unfold tool_stats. intros H.
  bind_as H a Ha. bind_as H b Hb. bind_as H c Hc. bind_as H h Hh. bind_as H e He.
  bind_as H n Hn. injection H as <-. discriminate.
Qed.

Lemma dispatch_undeclared n arguments data :
  declared n = false -> dispatch n arguments data = Ok ("Unknown tool: " +++ n).
Proof.
  unfold declared, dispatch. cbn [list_tools map Tool.name existsb]. intros K.
  repeat (apply orb_false_iff in K as [? K]).
  now repeat match goal with E : (_ =? _)%string = false |- _ => rewrite E; clear E end.
Qed.

(** The tools [list_tools] declares are the ones [call_tool] dispatches: a
    name that is not declared gets the unknown-tool answer, and a declared
    tool never does, whatever its arguments and the dataset. *)
Theorem declared_tools_are_dispatched (n : string) (arguments data : pyval) :
  (declared n = false -> dispatch n arguments data = Ok ("Unknown tool: " +++ n))
  /\ (declared n = true -> dispatch n arguments data <> Ok ("Unknown tool: " +++ n)).
Proof.
  split; [apply dispatch_undeclared|].
  unfold declared, dispatch. cbn [list_tools map Tool.name existsb]. intros K H.
  assert (U : first_char ("Unknown tool: " +++ n) = Some "U"%char) by reflexivity.
  destruct (n =? "search_services")%string;
    [now apply tool_search_first in H|].
  destruct (n =? "get_service_details")%string;
    [now apply tool_details_first in H|].
  destruct (n =? "list_services")%string;
    [now apply tool_list_first in H|].
  destruct (n =? "get_services_stats")%string;
    [now apply tool_stats_first in H|].
  discriminate.
Qed.

Lemma declared_tools_are_dispatched_witness :
  dispatch "list_tools" (PDict []) sample = Ok "Unknown tool: list_tools"
  /\ dispatch "get_services_stats" PNone sample <> Ok "Unknown tool: get_services_stats".
Proof.
  split.
  - apply (proj1 (declared_tools_are_dispatched "list_tools" (PDict []) sample)).
    reflexivity.
  - apply (proj2 (declared_tools_are_dispatched "get_services_stats" PNone sample)).
    reflexivity.
Defined.

Lemma schema_default_none tool k ps parameter :
  field (Tool.inputSchema tool) "properties" (PDict []) = PDict [(k, PDict ps)] ->
  k <> parameter ->
  schema_default tool parameter = PNone.
Proof.
  intros E N. unfold schema_default. rewrite E. unfold field at 2. cbn [dict_get].
  apply String.eqb_neq in N. rewrite N. reflexivity.
Qed.

(** What the schemas promise is what the dispatcher does: a parameter a
    declared tool lists as required is the one whose absence gives that
    tool's parameter message, and leaving out a parameter with a declared
    default (the limit of [list_services], 50) is the same as passing that
    default. *)
Theorem declared_parameters_are_honoured (tool : Tool.t) (a : list (string * pyval))
        (data : pyval) (parameter : string) :
  In tool list_tools ->
  dict_get a parameter = None ->
  (In (PStr parameter) (required_parameters tool) ->
   dispatch (Tool.name tool) (PDict a) data
   = Ok ("Error: " +++ parameter +++ " parameter is required"))
  /\ (schema_default tool parameter <> PNone ->
      dispatch (Tool.name tool) (PDict (put parameter (schema_default tool parameter) a)) data
      = dispatch (Tool.name tool) (PDict a) data).
Proof.
  intros T M. destruct T as [<-|[<-|[<-|[<-|[]]]]]; split.
  - intros [E|[]]. injection E as <-.
    cbn [Tool.name dispatch String.eqb Ascii.eqb Bool.eqb]. unfold tool_search.
    rewrite py_get_dict, (field_missing a _ _ M). reflexivity.
  - intros D. exfalso. apply D.
    destruct (String.eqb_spec "query" parameter) as [<-|N]; [reflexivity|].
    eapply (schema_default_none _ "query"); [reflexivity | exact N].
  - intros [E|[]]. injection E as <-.
    cbn [Tool.name dispatch String.eqb Ascii.eqb Bool.eqb]. unfold tool_details.
    rewrite py_get_dict, (field_missing a _ _ M). reflexivity.
  - intros D. exfalso. apply D.
    destruct (String.eqb_spec "service_id" parameter) as [<-|N]; [reflexivity|].
    eapply (schema_default_none _ "service_id"); [reflexivity | exact N].
  - intros [].
  - destruct (String.eqb_spec "limit" parameter) as [<-|N].
    + intros _. change (schema_default (nth 2 list_tools (Tool.make "" "" PNone)) "limit")
        with (PInt 50).
      cbn [Tool.name dispatch String.eqb Ascii.eqb Bool.eqb]. unfold tool_list.
      rewrite !py_get_dict, field_put, (field_missing a _ _ M).
      cbn [String.eqb Ascii.eqb Bool.eqb]. reflexivity.
    + intros D. exfalso. apply D.
      eapply (schema_default_none _ "limit"); [reflexivity | exact N].
  - intros [].
  - intros D. exfalso. apply D. reflexivity.
Qed.

Lemma declared_parameters_are_honoured_witness :
  dispatch "get_service_details" (PDict [("query", PStr "x")]) sample
  = Ok "Error: service_id parameter is required"
  /\ dispatch "list_services" (PDict (put "limit" (PInt 50) [])) sample
     = dispatch "list_services" (PDict []) sample.
Proof.
  split.
  - apply (proj1 (declared_parameters_are_honoured
                    (Tool.make "get_service_details"
      "Get detailed information about a specific Berlin service by its ID. Returns comprehensive information including requirements, forms, fees, appointments, and more."
      (PDict [("type", PStr "object");
              ("properties",
               PDict [("service_id",
                       PDict [("type", PStr "string");
                              ("description", PStr "The ID of the service")])]);
              ("required", PList [PStr "service_id"])]))
                    [("query", PStr "x")] sample "service_id"
                    ltac:(right; left; reflexivity) eq_refl)).
    left. reflexivity.
  - apply (proj2 (declared_parameters_are_honoured
                    (nth 2 list_tools (Tool.make "" "" PNone)) [] sample "limit"
                    ltac:(right; right; left; reflexivity) eq_refl)).
    discriminate.
Defined.

(* ================================================================== *)
(** * Listing: only the prefix is read *)

(** The listing projects the first [limit] records and does not look at the
    others: only the records of the prefix need to be mappings (with a
    mapping or nothing as ["meta"]), the rest of the dataset may hold
    anything. *)
Theorem list_ignores_records_beyond_limit (data : pyval) (limit : Z) :
  dataset data ->
  0 <= limit ->
  Forall listable (firstn (Z.to_nat limit) (records data)) ->
  list_all_services data limit
  = Ok (map list_projection (firstn (Z.to_nat limit) (records data))).
Proof.
  intros D Z0 L. destruct data as [| | | | |d]; try contradiction.
  unfold list_all_services. rewrite py_get_dict. cbn [bind].
  unfold records in *. simpl in D. cbn [field] in *.
  destruct (dict_get d "data") as [[]|]; try contradiction;
    cbn [py_slice_to bind py_iter]; rewrite slice_stop_nonneg by assumption.
  - now rewrite list_loop_Ok.
  - now rewrite firstn_nil.
Qed.

Lemma list_ignores_records_beyond_limit_witness :
  list_all_services (dataset_of [numbered 1; numbered 2; PNone; PStr "broken"]) 2
  = Ok (map list_projection
          (firstn 2 (records (dataset_of [numbered 1; numbered 2; PNone; PStr "broken"])))).
Proof.
  apply (list_ignores_records_beyond_limit
           (dataset_of [numbered 1; numbered 2; PNone; PStr "broken"]) 2).
  - exact I.
  - lia.
  - repeat constructor.
Defined.

(* ================================================================== *)
(** * Formatter: the document of a Service record *)

Lemma entries_sequence (P : list (string * pyval) -> Prop) d k :
  optional d k (entries P) ->
  field (PDict d) k (PList []) = PList (sequence_of (PDict d) k)
  /\ Forall mapping (sequence_of (PDict d) k).
Proof.
  intros O.
  assert (E : entries P (field (PDict d) k (PList [])))
    by (apply (optional_field d k); [exact O | apply entries_nil]).
  unfold sequence_of.
  destruct (field (PDict d) k (PList [])) as [| | | | l |]; try contradiction.
  split; [reflexivity|]. cbn [entries] in E.
  apply Forall_forall. intros x Hx. rewrite Forall_forall in E. apply E in Hx.
  destruct x; try contradiction. exact I.
Qed.

Lemma head_lines_value d :
  optional d "meta" mapping ->
  optional d "description" text_value ->
  optional d "fees" text_value ->
  optional d "process_time" text_value ->
  head_lines (PDict d)
  = Ok (map PStr (opening (PDict d)
                    (py_str (field (PDict d) "description" (PStr "N/A")))
                    (py_str (field (PDict d) "fees" (PStr "N/A")))
                    (py_str (field (PDict d) "process_time" (PStr "N/A"))))).
Proof.
  intros M D F T. unfold head_lines, opening. rewrite !py_get_dict. cbn [bind].
  assert (Mm : mapping (field (PDict d) "meta" (PDict [])))
    by (apply (optional_field d "meta"); [exact M | apply mapping_nil]).
  assert (Td : text_value (field (PDict d) "description" (PStr "N/A")))
    by (apply (optional_field d "description" text_value); [exact D | exact I]).
  assert (Tf : text_value (field (PDict d) "fees" (PStr "N/A")))
    by (apply (optional_field d "fees" text_value); [exact F | exact I]).
  assert (Tp : text_value (field (PDict d) "process_time" (PStr "N/A")))
    by (apply (optional_field d "process_time" text_value); [exact T | exact I]).
  destruct (field (PDict d) "meta" (PDict [])) as [| | | | |m]; try contradiction.
  rewrite py_get_dict. cbn [bind].
  destruct (field (PDict d) "description" (PStr "N/A")); try contradiction.
  destruct (field (PDict d) "fees" (PStr "N/A")); try contradiction.
  destruct (field (PDict d) "process_time" (PStr "N/A")); try contradiction.
  reflexivity.
Qed.

Lemma add_requirements_value d :
  optional d "requirements" (entries (fun e => optional e "description" text_value)) ->
  add_requirements (PDict d) []
  = Ok (under_heading "## Requirements" (sequence_of (PDict d) "requirements")
          (flat_map requirement_entry (sequence_of (PDict d) "requirements"))).
Proof.
  intros O. apply entries_sequence in O as [E M].
  unfold add_requirements. rewrite py_get_dict, E. cbn [bind].
  destruct (sequence_of (PDict d) "requirements") as [|x l]; [reflexivity|].
  cbn [truthy py_iter bind app under_heading]. now rewrite requirement_entries.
Qed.

Lemma add_forms_value d :
  optional d "forms" (entries (fun _ => True)) ->
  add_forms (PDict d) []
  = Ok (under_heading "## Forms" (sequence_of (PDict d) "forms")
          (map link_bullet (sequence_of (PDict d) "forms"))).
Proof.
  intros O. apply entries_sequence in O as [E M].
  unfold add_forms. rewrite py_get_dict, E. cbn [bind].
  destruct (sequence_of (PDict d) "forms") as [|x l]; [reflexivity|].
  cbn [truthy py_iter bind app under_heading]. now rewrite link_bullets.
Qed.

Lemma add_legal_value d :
  optional d "legal" (entries (fun _ => True)) ->
  add_legal (PDict d) []
  = Ok (under_heading "## Legal Basis" (sequence_of (PDict d) "legal")
          (map link_bullet (sequence_of (PDict d) "legal"))).
Proof.
  intros O. apply entries_sequence in O as [E M].
  unfold add_legal. rewrite py_get_dict, E. cbn [bind].
  destruct (sequence_of (PDict d) "legal") as [|x l]; [reflexivity|].
  cbn [truthy py_iter bind app under_heading]. now rewrite link_bullets.
Qed.

Lemma add_authorities_value d :
  optional d "authorities" (entries (fun _ => True)) ->
  add_authorities (PDict d) []
  = Ok (under_heading "## Responsible Authorities" (sequence_of (PDict d) "authorities")
          (map authority_bullet (firstn 5 (sequence_of (PDict d) "authorities"))
           ++ (if (5 <? List.length (sequence_of (PDict d) "authorities"))%nat
               then [PStr ("- ... and "
                           +++ str_of_nat (List.length (sequence_of (PDict d) "authorities") - 5)
                           +++ " more")]
               else []))).
Proof.
  intros O. apply entries_sequence in O as [E M].
  unfold add_authorities. rewrite py_get_dict, E. cbn [bind].
  destruct (sequence_of (PDict d) "authorities") as [|x l]; [reflexivity|].
  cbn [truthy py_slice_to py_iter bind under_heading].
  rewrite slice_stop_nonneg by lia. change (Z.to_nat 5) with 5%nat.
  rewrite authority_bullets.
  - cbn [bind py_len app]. destruct (5 <? List.length (x :: l))%nat.
    + reflexivity.
    + now rewrite !app_nil_r.
  - rewrite <- (firstn_skipn 5 (x :: l)) in M. now apply Forall_app in M.
Qed.

Lemma add_prerequisites_value d :
  optional d "prerequisites" (entries (fun _ => True)) ->
  add_prerequisites (PDict d) [] = Ok (prerequisites_section (PDict d)).
Proof.
  intros O. destruct (add_prerequisites_total d O) as (out & E & _).
  rewrite E. f_equal. now apply add_prerequisites_section.
Qed.

Lemma add_online_value d :
  optional d "onlineprocessing" mapping ->
  add_online (PDict d) []
  = Ok (link_section "## Online Processing" "Process online"
          (field (field (PDict d) "onlineprocessing" (PDict [])) "link" PNone)).
Proof.
  intros O. unfold add_online, link_section. rewrite py_get_dict. cbn [bind].
  assert (M : mapping (field (PDict d) "onlineprocessing" (PDict [])))
    by (apply (optional_field d "onlineprocessing"); [exact O | apply mapping_nil]).
  destruct (field (PDict d) "onlineprocessing" (PDict [])) as [| | | | |m];
    try contradiction.
  rewrite !py_get_dict. cbn [bind].
  destruct (truthy (field (PDict m) "link" PNone)); reflexivity.
Qed.

Lemma add_appointment_value d :
  optional d "appointment" mapping ->
  add_appointment (PDict d) []
  = Ok (link_section "## Appointment" "Book appointment"
          (field (field (PDict d) "appointment" (PDict [])) "link" PNone)).
Proof.
  intros O. unfold add_appointment, link_section. rewrite py_get_dict. cbn [bind].
  assert (M : mapping (field (PDict d) "appointment" (PDict [])))
    by (apply (optional_field d "appointment"); [exact O | apply mapping_nil]).
  destruct (field (PDict d) "appointment" (PDict [])) as [| | | | |m];
    try contradiction.
  rewrite !py_get_dict. cbn [bind].
  destruct (truthy (field (PDict m) "link" PNone)); reflexivity.
Qed.

(** The lines the formatter joins are the lines of the document. *)
Lemma format_lines_document service :
  service_record service -> format_lines service = Ok (document service).
Proof.
  destruct service as [| | | | |d]; try contradiction.
  intros (M & D & F & T & Rq & Pr & Fo & On & Ap & Au & Le).
  rewrite format_lines_parts.
  rewrite (head_lines_value d M D F T). cbn [bind].
  rewrite (add_requirements_value d Rq). cbn [bind].
  rewrite (add_prerequisites_value d Pr). cbn [bind].
  rewrite (add_forms_value d Fo). cbn [bind].
  rewrite (add_online_value d On). cbn [bind].
  rewrite (add_appointment_value d Ap). cbn [bind].
  rewrite (add_authorities_value d Au). cbn [bind].
  rewrite (add_legal_value d Le). cbn [bind].
  reflexivity.
Qed.

Lemma str_items_Ok lines i strs :
  str_items i lines = Ok strs -> strs = map py_str lines.
Proof.
  revert i strs. induction lines as [|v lines IH]; intros i strs H.
  - now injection H as <-.
  - destruct v; cbn [str_items] in H; try discriminate.
    bind_as H r Hr. injection H as <-. apply IH in Hr as ->. reflexivity.
Qed.

(** On a Service record the formatter returns the document, joined. *)
Lemma format_document service :
  service_record service ->
  format_service_details service = Ok (join nl (map py_str (document service))).
Proof.
  intros R. destruct (format_total service R) as [text E].
  unfold format_service_details in *. rewrite (format_lines_document service R) in *.
  cbn [bind] in *. unfold py_join in *. bind_as E strs Hs. injection E as <-.
  rewrite Hs. cbn [bind]. now apply str_items_Ok in Hs as ->.
Qed.

(** C8, as amended.  On a Service record the formatter returns a text, and
    that text is the document of the specification: the sections in their
    order, joined by newlines, with "N/A" in the place of every missing
    field but one.  So the record that lacks every field renders as the
    text with "N/A" in each place and an empty line for the description of
    its requirement.  A missing field renders as that field holding "N/A":
    the top-level fields name, id, description, fees and process_time, the
    URL, and the name of an entry of requirements, prerequisites, forms,
    authorities or legal.  The description of a requirement is the
    exception: when it is missing it renders as the empty text. *)
Theorem formatter_total_with_placeholders :
  (forall service,
      service_record service ->
      format_service_details service = Ok (join nl (map py_str (document service))))
  /\ format_service_details hollow = Ok hollow_text
  /\ (forall d k,
         In k ["name"; "id"; "description"; "fees"; "process_time"] ->
         dict_get d k = None ->
         format_service_details (PDict (put k (PStr "N/A") d))
         = format_service_details (PDict d))
  /\ (forall d m,
         field (PDict d) "meta" (PDict []) = PDict m ->
         dict_get m "url" = None ->
         format_service_details (PDict (put "meta" (PDict (put "url" (PStr "N/A") m)) d))
         = format_service_details (PDict d))
  /\ (forall d k before e after,
         In k ["requirements"; "prerequisites"; "forms"; "authorities"; "legal"] ->
         dict_get d k = Some (PList (before ++ PDict e :: after)) ->
         dict_get e "name" = None ->
         format_service_details
           (PDict (put k (PList (before ++ PDict (put "name" (PStr "N/A") e) :: after)) d))
         = format_service_details (PDict d))
  /\ (forall d before e after,
         dict_get d "requirements" = Some (PList (before ++ PDict e :: after)) ->
         dict_get e "description" = None ->
         format_service_details
           (PDict (put "requirements"
                     (PList (before ++ PDict (put "description" (PStr "") e) :: after)) d))
         = format_service_details (PDict d)).
Proof.
  split; [exact format_document | split; [reflexivity|]].
  split; [exact top_level_placeholder | split].
  - exact url_placeholder.
  - split; [exact entry_name_placeholder|].
    intros d before e after H M.
    apply (requirements_entry_alike d before _ (PDict e) after);
      [now apply requirement_description_alike | exact H].
Qed.

Lemma formatter_total_with_placeholders_witness :
  format_service_details anmeldung = Ok (join nl (map py_str (document anmeldung)))
  /\ format_service_details
       (PDict (put "fees" (PStr "N/A")
                 [("id", PInt 7); ("name", PStr "Anmeldung");
                  ("description", PStr "Register your address")]))
     = format_service_details anmeldung
  /\ format_service_details
       (PDict (put "requirements" (PList [PDict (put "description" (PStr "") [])])
                 [("name", PStr "Anmeldung"); ("requirements", PList [PDict []])]))
     = format_service_details bare_requirement.
Proof.
  destruct formatter_total_with_placeholders as (T & _ & F & _ & _ & R).
  split; [|split].
  - apply T. repeat split.
  - apply (F _ "fees"); [cbn; tauto | reflexivity].
  - apply (R _ [] [] []); reflexivity.
Defined.
